(** * steamcharts_to_csv: a shallow embedding of [main.py]

    The program fetches the player-count series of one Steam application
    from SteamCharts, turns every UNIX timestamp into a UTC string and
    writes the rows to a CSV file.  This file embeds its four functions
    ([fetch_chart_data], [format_data], [save_to_csv], [main]) and proves
    the properties its specification states about them.

    Conventions.
    - Python [int] is [Z]; Python [str] is [string].
    - A Python exception is a value of [exn]: its class and the text that
      [str(e)] gives.  Code that may raise returns an [outcome].
    - The parsed JSON body is a [json] value; a Python [dict] is a
      [gmap string json].
    - The process state (files on disk, HTTP requests issued, texts printed)
      is threaded explicitly; what the outside world answers (the HTTP
      exchange, I/O faults) is read from a [world] record.
    - [format_data] and [save_to_csv] are embedded at the types of their
      annotations ([List[Tuple[int, int]]], [List[Tuple[int, str, int]]]).
      A JSON payload enters them through [as_raw_samples]; for a payload
      that is not a list of integer pairs, where Python's dynamic typing
      decides what happens, the outcome of the Formatter is read from the
      world ([dynamic_format]) and the program goes on as it does otherwise.
    - The library calls ([datetime.fromtimestamp], [strftime], [csv.writer],
      [requests]) are modelled as CPython on a 64-bit POSIX platform with
      the GNU C library behaves: [time_t] has 64 bits, [tm_year] is a C
      [int], and [%Y] writes the year without padding. *)

From stdpp Require Import gmap strings list pretty.
From Stdlib Require Import ZArith Lia Ascii String.

#[local] Open Scope Z_scope.
#[local] Set Warnings "-register-all".

(** ** Exceptions and outcomes *)

Inductive exn_class :=
  | ConnectionError | HTTPError | JSONDecodeError
  | ValueError | TypeError | KeyError | OverflowError | OSError.

(** [exn_message e] is what [str(e)] (and so [f"{e}"]) evaluates to. *)
Record exn := Exn { exn_kind : exn_class; exn_message : string }.

Inductive outcome (A : Type) :=
  | Ok (a : A)
  | Raise (e : exn).
Arguments Ok {A} a.
Arguments Raise {A} e.

(** Sequencing stops at the first exception; [x ← c; k] is stdpp's
    notation for it. *)
#[global] Instance outcome_ret : MRet outcome := fun _ a => Ok a.
#[global] Instance outcome_bind : MBind outcome := fun _ _ f x =>
  match x with
  | Ok a => f a
  | Raise e => Raise e
  end.

(** ** The calendar behind [datetime.fromtimestamp(ts, timezone.utc)] *)

Module Calendar.

Record datetime := DateTime {
  year : Z; month : Z; day : Z;
  hour : Z; minute : Z; second : Z
}.

Definition is_leap (y : Z) : bool :=
  (y mod 4 =? 0) && (negb (y mod 100 =? 0) || (y mod 400 =? 0)).

(** Days in the months before month [m] of a common year. *)
Definition days_before_month_common (m : Z) : Z :=
  match m with
  | 1 => 0 | 2 => 31 | 3 => 59 | 4 => 90 | 5 => 120 | 6 => 151
  | 7 => 181 | 8 => 212 | 9 => 243 | 10 => 273 | 11 => 304 | 12 => 334
  | _ => 0
  end.

Definition days_in_month_common (m : Z) : Z :=
  match m with
  | 1 => 31 | 2 => 28 | 3 => 31 | 4 => 30 | 5 => 31 | 6 => 30
  | 7 => 31 | 8 => 31 | 9 => 30 | 10 => 31 | 11 => 30 | 12 => 31
  | _ => 0
  end.

Definition days_in_month (y m : Z) : Z :=
  days_in_month_common m + (if (m =? 2) && is_leap y then 1 else 0).

Definition days_before_month (y m : Z) : Z :=
  days_before_month_common m + (if (2 <? m) && is_leap y then 1 else 0).

(** Days before January 1st of year [y], counted from 0001-01-01. *)
Definition days_before_year (y : Z) : Z :=
  let y := y - 1 in y * 365 + y / 4 - y / 100 + y / 400.

(** Proleptic Gregorian ordinal: 0001-01-01 is day 1. *)
Definition ymd2ord (y m d : Z) : Z :=
  days_before_year y + days_before_month y m + d.

(** The ordinal of 1970-01-01. *)
Definition epoch_ordinal : Z := 719163.

(** Seconds since the epoch of a broken-down UTC time ([calendar.timegm]). *)
Definition timegm (dt : datetime) : Z :=
  (ymd2ord (year dt) (month dt) (day dt) - epoch_ordinal) * 86400
  + hour dt * 3600 + minute dt * 60 + second dt.

Definition valid_datetime (dt : datetime) : Prop :=
  1 <= year dt <= 9999 /\ 1 <= month dt <= 12 /\
  1 <= day dt <= days_in_month (year dt) (month dt) /\
  0 <= hour dt < 24 /\ 0 <= minute dt < 60 /\ 0 <= second dt < 60.

(** Ordinal to (year, month, day), by the 400/100/4/1-year cycles, as the
    datetime module computes it. *)
Definition ord2ymd (n : Z) : Z * Z * Z :=
  let n := n - 1 in
  let n400 := n / 146097 in
  let n := n mod 146097 in
  let y := n400 * 400 + 1 in
  let n100 := n / 36524 in
  let n := n mod 36524 in
  let n4 := n / 1461 in
  let n := n mod 1461 in
  let n1 := n / 365 in
  let n := n mod 365 in
  let y := y + n100 * 100 + n4 * 4 + n1 in
  if (n1 =? 4) || (n100 =? 4) then (y - 1, 12, 31)
  else
    let leapyear := (n1 =? 3) && (negb (n4 =? 24) || (n100 =? 3)) in
    let m := Z.shiftr (n + 50) 5 in
    let preceding :=
      days_before_month_common m + (if (2 <? m) && leapyear then 1 else 0) in
    if n <? preceding then
      let m := m - 1 in
      let preceding :=
        preceding
        - (days_in_month_common m + (if (m =? 2) && leapyear then 1 else 0)) in
      (y, m, n - preceding + 1)
    else (y, m, n - preceding + 1).

(** [gmtime]: the broken-down UTC time of [t] seconds since the epoch
    (POSIX time: every day has 86400 seconds). *)
Definition gmtime (t : Z) : datetime :=
  let days := t / 86400 in
  let secs := t mod 86400 in
  let '(y, m, d) := ord2ymd (days + epoch_ordinal) in
  DateTime y m d (secs / 3600) ((secs mod 3600) / 60) (secs mod 60).

(** The range of [time_t] and of the C [int] that holds [tm_year]. *)
Definition time_t_min : Z := - 2 ^ 63.
Definition time_t_max : Z := 2 ^ 63 - 1.
Definition int_min : Z := - 2 ^ 31.
Definition int_max : Z := 2 ^ 31 - 1.

(** The value a C [int] holds after an addition that leaves its range
    (two's complement, 32 bits). *)
Definition c_int (n : Z) : Z := (n + 2 ^ 31) mod 2 ^ 32 - 2 ^ 31.

(** [datetime.fromtimestamp(t, timezone.utc)] for an [int] [t]: the
    conversion to [time_t], the C library's [gmtime], which fails when
    [tm_year] does not fit, then the constructor's check of the year
    [tm_year + 1900], a sum made in a C [int]. *)
Definition fromtimestamp_utc (t : Z) : outcome datetime :=
  if (t <? time_t_min) || (time_t_max <? t) then
    Raise (Exn OverflowError "timestamp out of range for platform time_t")
  else
    let dt := gmtime t in
    if (year dt - 1900 <? int_min) || (int_max <? year dt - 1900) then
      Raise (Exn OSError "[Errno 75] Value too large for defined data type")
    else
      let y := c_int (year dt) in
      if (y <? 1) || (9999 <? y) then
        Raise (Exn ValueError ("year " +:+ pretty y +:+ " is out of range"))
      else Ok dt.

(** The first and the last timestamp with a year in 1..9999. *)
Definition min_timestamp : Z := -62135596800.
Definition max_timestamp : Z := 253402300799.

Fixpoint zeros (k : nat) : string :=
  match k with
  | O => ""
  | S k => String "0"%char (zeros k)
  end.

(** A non-negative number in decimal, zero-padded to [width] digits. *)
Definition zfill (width : nat) (n : Z) : string :=
  let s := pretty n in zeros (width - String.length s)%nat +:+ s.

(** [dt.strftime("%Y-%m-%d %H:%M:%S")]: the directives are the C
    library's.  [%m], [%d], [%H], [%M] and [%S] are two digits, zero-padded;
    [%Y] is the year in decimal with no padding, so that a year below 1000
    takes fewer than four characters. *)
Definition strftime (dt : datetime) : string :=
  pretty (year dt) +:+ "-" +:+ zfill 2 (month dt) +:+ "-" +:+ zfill 2 (day dt)
  +:+ " " +:+
  zfill 2 (hour dt) +:+ ":" +:+ zfill 2 (minute dt) +:+ ":" +:+ zfill 2 (second dt).

(** Reading the text back. *)
Definition digit_value (c : ascii) : option Z :=
  let n := Z.of_N (N_of_ascii c) in
  if (48 <=? n) && (n <=? 57) then Some (n - 48) else None.

Fixpoint read_digits (k : nat) (acc : Z) (s : string) : option (Z * string) :=
  match k with
  | O => Some (acc, s)
  | S k =>
      match s with
      | String c s' =>
          match digit_value c with
          | Some v => read_digits k (acc * 10 + v) s'
          | None => None
          end
      | EmptyString => None
      end
  end.

Definition read_char (c : ascii) (s : string) : option string :=
  match s with
  | String c' s' => if Ascii.eqb c c' then Some s' else None
  | EmptyString => None
  end.

(** What follows the year: [-MM-DD HH:MM:SS] and the end of the text. *)
Definition read_after_year (y : Z) (s : string) : option datetime :=
  s ← read_char "-"%char s;
  '(m, s) ← read_digits 2 0 s;
  s ← read_char "-"%char s;
  '(d, s) ← read_digits 2 0 s;
  s ← read_char " "%char s;
  '(hh, s) ← read_digits 2 0 s;
  s ← read_char ":"%char s;
  '(mi, s) ← read_digits 2 0 s;
  s ← read_char ":"%char s;
  '(ss, s) ← read_digits 2 0 s;
  match s with
  | EmptyString => Some (DateTime y m d hh mi ss)
  | _ => None
  end.


(** The digits a text starts with, as a number, and what follows them. *)
Fixpoint read_number (acc : Z) (s : string) : Z * string :=
  match s with
  | String c s' =>
      match digit_value c with
      | Some v => read_number (acc * 10 + v) s'
      | None => (acc, s)
      end
  | EmptyString => (acc, s)
  end.

(** Reading the layout [Y-MM-DD HH:MM:SS] with a year of any number of
    digits. *)
Definition read_datetime (s : string) : option datetime :=
  let '(y, s) := read_number 0 s in
  read_after_year y s.

End Calendar.

Import Calendar.

(** ** JSON values, as [response.json()] returns them *)

Inductive json :=
  | JNull
  | JBool (b : bool)
  | JInt (n : Z)
  | JFloat (literal : string)   (* a number with a fraction or an exponent *)
  | JStr (s : string)
  | JArr (l : list json)        (* Python list *)
  | JObj (d : gmap string json) (* Python dict *).

(** ** The outside world and the process state *)

Record response := Response {
  url : string;               (* the URL the response came from *)
  status_code : Z;
  reason : string;
  json_body : outcome json    (* what response.json() returns or raises *)
}.

Record world := World {
  (* requests.get(url): a response, or a network-level exception *)
  http_get : string -> outcome response;
  (* open(path, mode="w") raises *)
  open_fault : string -> option exn;
  (* the n-th write to the open file raises (the first write is number 0) *)
  write_fault : string -> nat -> option exn;
  (* closing the file (flushing it) raises *)
  close_fault : string -> option exn;
  (* what [format_data] and the csv module make of a payload that is not a
     list of integer pairs, where Python's dynamic typing decides: an
     exception, or the rows of fields as the csv module writes them *)
  dynamic_format : json -> outcome (list (list string))
}.

Record state := State {
  files : gmap string string;  (* path to content *)
  requests : list string;      (* URLs fetched so far, oldest first *)
  stdout : list string         (* the text of each print, oldest first *)
}.

(** Code that may raise and that changes the process state.  The state
    changes made before an exception stay. *)
Definition io (A : Type) : Type := state -> outcome A * state.

#[global] Instance io_ret : MRet io := fun _ a s => (Ok a, s).
#[global] Instance io_bind : MBind io := fun _ _ f c s =>
  match c s with
  | (Ok a, s') => f a s'
  | (Raise e, s') => (Raise e, s')
  end.

Definition lift {A} (x : outcome A) : io A := fun s => (x, s).

Definition print (line : string) : io unit := fun s =>
  (Ok (), State (files s) (requests s) (stdout s ++ [line])).

(** ** Fetcher *)

Section Program.

Variable w : world.

(** [requests.get(u)]: the request is issued, then the world answers. *)
Definition requests_get (u : string) : io response := fun s =>
  (http_get w u, State (files s) (requests s ++ [u]) (stdout s)).

(** [response.raise_for_status()] *)
Definition raise_for_status (r : response) : outcome unit :=
  if (400 <=? status_code r) && (status_code r <? 500) then
    Raise (Exn HTTPError (pretty (status_code r) +:+ " Client Error: "
                          +:+ reason r +:+ " for url: " +:+ url r))
  else if (500 <=? status_code r) && (status_code r <? 600) then
    Raise (Exn HTTPError (pretty (status_code r) +:+ " Server Error: "
                          +:+ reason r +:+ " for url: " +:+ url r))
  else Ok ().

(** [data[key]] on a dict. *)
Definition getitem (d : gmap string json) (key : string) : outcome json :=
  match d !! key with
  | Some v => Ok v
  | None => Raise (Exn KeyError ("'" +:+ key +:+ "'"))
  end.

(** Lines 25-30: the dispatch on the shape of the parsed body. *)
Definition chart_data_of (data : json) : outcome json :=
  match data with
  | JArr _ => Ok data
  | JObj d =>
      if bool_decide (is_Some (d !! "data")) then getitem d "data"
      else Raise (Exn ValueError "Unexpected data format from SteamCharts.")
  | _ => Raise (Exn ValueError "Unexpected data format from SteamCharts.")
  end.

(** Line 20. *)
Definition chart_url (app_id : string) : string :=
  "https://steamcharts.com/app/" +:+ app_id +:+ "/chart-data.json".

(** [fetch_chart_data], lines 10-30. *)
Definition fetch_chart_data (app_id : string) : io json :=
  let u := chart_url app_id in
  response ← requests_get u;
  _ ← lift (raise_for_status response);
  data ← lift (json_body response);
  lift (chart_data_of data).

(** ** Formatter *)

(** One turn of the loop body: lines 40-45.  The float literal [1e12] is
    exactly 10^12, and Python compares an [int] with a [float] by value. *)
Definition format_sample (sample : Z * Z) : outcome (Z * string * Z) :=
  let '(timestamp, count) := sample in
  let timestamp :=
    if 1000000000000 <? timestamp then timestamp / 1000 else timestamp in
  dt ← fromtimestamp_utc timestamp;
  mret (timestamp, strftime dt, count).

(** The loop, with the list [formatted] it appends to. *)
Fixpoint format_loop (data : list (Z * Z)) (formatted : list (Z * string * Z))
  : outcome (list (Z * string * Z)) :=
  match data with
  | [] => Ok formatted
  | sample :: data =>
      row ← format_sample sample;
      format_loop data (formatted ++ [row])
  end.

(** [format_data], lines 35-46. *)
Definition format_data (data : list (Z * Z)) : outcome (list (Z * string * Z)) :=
  format_loop data [].

(** ** Writer *)

Definition quotechar : ascii := "034"%char.
Definition delimiter : ascii := ","%char.
Definition CR : ascii := "013"%char.
Definition LF : ascii := "010"%char.
Definition lineterminator : string := String CR (String LF "").

Definition is_special (c : ascii) : bool :=
  Ascii.eqb c delimiter || Ascii.eqb c quotechar
  || Ascii.eqb c CR || Ascii.eqb c LF.

Fixpoint needs_quotes (s : string) : bool :=
  match s with
  | EmptyString => false
  | String c s => is_special c || needs_quotes s
  end.

(** Inside quotes the quote character is doubled. *)
Fixpoint double_quotes (s : string) : string :=
  match s with
  | EmptyString => EmptyString
  | String c s =>
      if Ascii.eqb c quotechar then String c (String c (double_quotes s))
      else String c (double_quotes s)
  end.

(** A [str] field under the default dialect ([QUOTE_MINIMAL]). *)
Definition csv_str (s : string) : string :=
  if needs_quotes s then
    String quotechar (double_quotes s +:+ String quotechar "")
  else s.

(** An [int] field is written as [str(n)]. *)
Definition csv_int (n : Z) : string := pretty n.

Fixpoint join (fields : list string) : string :=
  match fields with
  | [] => ""
  | [f] => f
  | f :: fields => f +:+ String delimiter (join fields)
  end.

(** The text [writer.writerow] hands to [file.write]. *)
Definition csv_line (fields : list string) : string :=
  join fields +:+ lineterminator.

(** The header row of line 60. *)
Definition header_fields : list string :=
  map csv_str ["Timestamp"; "Datetime (UTC)"; "PlayerCount"].

(** The fields of one formatted sample. *)
Definition row_fields (row : Z * string * Z) : list string :=
  let '(timestamp, dt, count) := row in
  [csv_int timestamp; csv_str dt; csv_int count].

(** [file.write(text)], the [n]-th write to the file open at [path]. *)
Definition file_write (path : string) (n : nat) (text : string) : io unit :=
  fun s =>
    match write_fault w path n with
    | Some e => (Raise e, s)
    | None =>
        (Ok (), State (alter (fun c => c +:+ text) path (files s))
                      (requests s) (stdout s))
    end.

(** [writer.writerows(rows)]: one [writerow] per row, in order; [n] counts
    the writes already made. *)
Fixpoint writerows (path : string) (n : nat) (rows : list (list string))
  : io unit :=
  match rows with
  | [] => mret ()
  | fields :: rows =>
      _ ← file_write path n (csv_line fields);
      writerows path (S n) rows
  end.

(** [with open(path, mode="w", newline="", encoding="utf-8") as file: body].
    Opening truncates; the file is closed on every way out of the body, and
    an exception raised by the close replaces the body's. *)
Definition with_open_w (path : string) (body : io unit) : io unit := fun s =>
  match open_fault w path with
  | Some e => (Raise e, s)
  | None =>
      let '(r, s') :=
        body (State (<[path := ""]> (files s)) (requests s) (stdout s)) in
      match close_fault w path with
      | Some e => (Raise e, s')
      | None => (r, s')
      end
  end.

(** Lines 58-61, on rows whose fields are already text. *)
Definition save_rows (rows : list (list string)) (filename : string)
  : io unit :=
  with_open_w filename
    (_ ← file_write filename 0 (csv_line header_fields);
     writerows filename 1 rows).

(** [save_to_csv], lines 50-61: the csv module renders each tuple as
    [row_fields] says. *)
Definition save_to_csv (data : list (Z * string * Z)) (filename : string)
  : io unit :=
  save_rows (map row_fields data) filename.

(** ** Entry point *)

(** The typed view of a payload: a list of two-element lists of integers. *)
Definition as_raw_sample (v : json) : option (Z * Z) :=
  match v with
  | JArr [JInt timestamp; JInt count] => Some (timestamp, count)
  | _ => None
  end.

Definition as_raw_samples (v : json) : option (list (Z * Z)) :=
  match v with
  | JArr l => mapM as_raw_sample l
  | _ => None
  end.

Definition usage : string := "Usage: python steamcharts_to_csv.py <app_id>".

Definition csv_filename (app_id : string) : string :=
  "steamcharts_" +:+ app_id +:+ ".csv".

(** The body of the [try] block, lines 72-76.  A payload that is a list of
    integer pairs takes the path of the annotations; for any other the
    world says what the Formatter yields, and the same steps follow. *)
Definition try_body (app_id : string) : io unit :=
  raw_data ← fetch_chart_data app_id;
  let filename := csv_filename app_id in
  match as_raw_samples raw_data with
  | Some data =>
      formatted_data ← lift (format_data data);
      _ ← save_to_csv formatted_data filename;
      print ("Data saved to " +:+ filename)
  | None =>
      rows ← lift (dynamic_format w raw_data);
      _ ← save_rows rows filename;
      print ("Data saved to " +:+ filename)
  end.

(** [main], with [sys.argv] as [argv]; the result is the exit status of
    the process and its final state. *)
Definition main (argv : list string) (s : state) : Z * state :=
  match argv with
  | [_; app_id] =>
      match try_body app_id s with
      | (Ok _, s') => (0, s')
      | (Raise e, s') => (1, (print ("Error: " +:+ exn_message e) s').2)
      end
  | _ => (1, (print usage s).2)
  end.

End Program.

(** * Specification-side definitions

    What the specification says, and the checks the proofs run, as
    definitions of their own: the theorems below relate them to the
    embedding above. *)

(** A bounded universal check, run by the virtual machine. *)
Fixpoint allZ (k : nat) (lo : Z) (p : Z -> bool) : bool :=
  match k with
  | O => true
  | S k => if p lo then allZ k (lo + 1) p else false
  end.

(** [ord2ymd n] is a date of the calendar whose ordinal is [n]. *)
Definition ord_ok (n : Z) : bool :=
  let '(y, m, d) := ord2ymd n in
  (1 <=? m) && (m <=? 12) && (1 <=? d) && (d <=? days_in_month y m)
  && (ymd2ord y m d =? n).

(** [zfill 2 n] is two decimal digits that read back as [n]. *)
Definition two_digits_ok (n : Z) : bool :=
  match zfill 2 n with
  | String a (String b EmptyString) =>
      match digit_value a, digit_value b with
      | Some va, Some vb => va * 10 + vb =? n
      | _, _ => false
      end
  | _ => false
  end.

(** The number a text made of digits only stands for. *)
Fixpoint digits_value (acc : Z) (s : string) : option Z :=
  match s with
  | EmptyString => Some acc
  | String c s => v ← digit_value c; digits_value (acc * 10 + v) s
  end.

(** The number of digits of a year from 1 to 9999. *)
Definition year_width (y : Z) : nat :=
  if y <? 10 then 1 else if y <? 100 then 2 else if y <? 1000 then 3 else 4.

(** [str(y)] is [year_width y] decimal digits that read back as [y], none
    of them a character that the csv module quotes. *)
Definition year_digits_ok (y : Z) : bool :=
  match digits_value 0 (pretty y) with
  | Some v =>
      (v =? y) && Nat.eqb (String.length (pretty y)) (year_width y)
      && negb (needs_quotes (pretty y))
  | None => false
  end.

(** The disambiguation rule in the specification's words: a timestamp whose
    value exceeds 10^12 is in milliseconds and is integer-divided by 1000;
    any other is in seconds. *)
Definition spec_seconds (timestamp : Z) : Z :=
  if decide (timestamp > 10 ^ 12) then timestamp `div` 1000 else timestamp.

(** A valid seconds-since-epoch value: an instant of the years 1 to 9999. *)
Definition valid_epoch_seconds (t : Z) : Prop :=
  -62135596800 <= t <= 253402300799.

#[global] Instance valid_epoch_seconds_dec t : Decision (valid_epoch_seconds t).
Proof. unfold valid_epoch_seconds. apply _. Defined.

(** The row the specification asks for. *)
Definition spec_row (sample : Z * Z) : Z * string * Z :=
  (spec_seconds sample.1, strftime (gmtime (spec_seconds sample.1)), sample.2).

(** The state after the one GET that [fetch_chart_data] issues. *)
Definition after_get (app_id : string) (s : state) : state :=
  State (files s) (requests s ++ [chart_url app_id]) (stdout s).

(** What the exchange yields, whatever the state. *)
Definition exchange (w : world) (app_id : string) : outcome json :=
  response ← http_get w (chart_url app_id);
  _ ← raise_for_status response;
  data ← json_body response;
  chart_data_of data.

(** A world that answers every GET with status 200 and the body [body], and
    where no I/O fails. *)
Definition serving (body : json) : world :=
  World (fun u => Ok (Response u 200 "OK" (Ok body)))
        (fun _ => None) (fun _ _ => None) (fun _ => None)
        (fun _ => Raise (Exn TypeError "cannot unpack non-iterable object")).

(** The state a run starts from: no file, no request, nothing printed. *)
Definition initial : state := State ∅ [] [].

(** The text of the file in the specification's words: the header row, then
    one comma-separated row per formatted sample, in order.  The text is
    spelled here character by character, with nothing taken from the
    embedding of the Writer: a row ends with a carriage return and a line
    feed, and a field that holds a comma, a double quote, a carriage return
    or a line feed stands between double quotes, each double quote inside
    it written twice. *)
Definition crlf : string := String "013"%char (String "010"%char "").

Fixpoint plain (s : string) : bool :=
  match s with
  | EmptyString => true
  | String c s =>
      bool_decide (c ∉ [","%char; "034"%char; "013"%char; "010"%char])
      && plain s
  end.

Fixpoint escaped (s : string) : string :=
  match s with
  | EmptyString => EmptyString
  | String c s =>
      (if bool_decide (c = "034"%char) then String c (String c "")
       else String c "")
      +:+ escaped s
  end.

Definition spec_field (s : string) : string :=
  if plain s then s
  else String "034"%char "" +:+ escaped s +:+ String "034"%char "".

Definition spec_header : string :=
  "Timestamp,Datetime (UTC),PlayerCount" +:+ crlf.

Definition spec_line (row : Z * string * Z) : string :=
  pretty row.1.1 +:+ "," +:+ spec_field row.1.2 +:+ "," +:+ pretty row.2
  +:+ crlf.

Fixpoint spec_lines (data : list (Z * string * Z)) : string :=
  match data with
  | [] => ""
  | row :: data => spec_line row +:+ spec_lines data
  end.

Definition spec_csv (data : list (Z * string * Z)) : string :=
  spec_header +:+ spec_lines data.

(** The same text for rows of fields. *)
Fixpoint csv_lines (rows : list (list string)) : string :=
  match rows with
  | [] => ""
  | fields :: rows => csv_line fields +:+ csv_lines rows
  end.

(** The rows of fields the Formatter hands to the Writer for a payload. *)
Definition formatted_rows (w : world) (raw : json)
  : outcome (list (list string)) :=
  match as_raw_samples raw with
  | Some data => formatted ← format_data data; mret (map row_fields formatted)
  | None => dynamic_format w raw
  end.

(** The response of the specification's first example. *)
Definition two_samples : json :=
  JArr [JArr [JInt 1700000000; JInt 10]; JArr [JInt 1700003600; JInt 12]].

(** The padded digits hold no character that the csv module quotes. *)
Definition two_digits_plain (n : Z) : bool :=
  negb (needs_quotes (zfill 2 n)).

(** The first of the writes number [n], [n+1], ..., [n+count-1] that fails,
    as its offset from [n] and its exception. *)
Fixpoint first_fault (fault : nat -> option exn) (n count : nat)
  : option (nat * exn) :=
  match count with
  | O => None
  | S count =>
      match fault n with
      | Some e => Some (O, e)
      | None =>
          match first_fault fault (S n) count with
          | Some (k, e) => Some (S k, e)
          | None => None
          end
      end
  end.

(** The text the file is left with when [save_rows] gets past the open:
    all of it, or what was written before the first write that fails. *)
Definition text_left (w : world) (path : string) (rows : list (list string))
  : string :=
  match first_fault (write_fault w path) 0 (S (List.length rows)) with
  | None => spec_header +:+ csv_lines rows
  | Some (O, _) => ""
  | Some (S k, _) => spec_header +:+ csv_lines (take k rows)
  end.


(** A raw sample as the JSON the service sends, and a list of them. *)
Definition sample_json (sample : Z * Z) : json :=
  JArr [JInt sample.1; JInt sample.2].

Definition payload (data : list (Z * Z)) : json :=
  JArr (map sample_json data).

(** The lines of the file for raw samples, as a reader of the file sees
    them: the normalized timestamp, its UTC datetime and the count,
    nothing quoted, each line ended by a carriage return and a line feed. *)
Fixpoint sample_lines (data : list (Z * Z)) : string :=
  match data with
  | [] => ""
  | sample :: data =>
      pretty (spec_seconds sample.1) +:+ ","
      +:+ strftime (gmtime (spec_seconds sample.1)) +:+ ","
      +:+ pretty sample.2 +:+ crlf
      +:+ sample_lines data
  end.

(** * Proofs *)

(** ** The calendar: [gmtime] inverts [timegm] *)

Module CalendarFacts.

Lemma allZ_spec k : forall lo p,
  allZ k lo p = true -> forall z, lo <= z < lo + Z.of_nat k -> p z = true.
Proof.
  induction k as [|k IH]; intros lo p H z Hz; [lia|].
  simpl in H. destruct (p lo) eqn:Hlo; [|discriminate].
  destruct (Z.eq_dec z lo) as [->|Hne]; [exact Hlo|].
  apply (IH (lo + 1) p H). lia.
Qed.

(** Every day of the 400-year cycle that starts at 0001-01-01. *)
Lemma ord_ok_cycle : allZ (Z.to_nat 146097) 1 ord_ok = true.
Proof. vm_cast_no_check (eq_refl true). Qed.

Lemma is_leap_period y k : is_leap (y + 400 * k) = is_leap y.
Proof.
  unfold is_leap.
  replace ((y + 400 * k) mod 4) with (y mod 4)
    by (replace (y + 400 * k) with (y + (100 * k) * 4) by lia;
        now rewrite Z_mod_plus_full).
  replace ((y + 400 * k) mod 100) with (y mod 100)
    by (replace (y + 400 * k) with (y + (4 * k) * 100) by lia;
        now rewrite Z_mod_plus_full).
  replace ((y + 400 * k) mod 400) with (y mod 400)
    by (replace (y + 400 * k) with (y + k * 400) by lia;
        now rewrite Z_mod_plus_full).
  reflexivity.
Qed.

Lemma days_before_year_period y k :
  days_before_year (y + 400 * k) = days_before_year y + 146097 * k.
Proof.
  unfold days_before_year. cbv zeta.
  replace (y + 400 * k - 1) with (y - 1 + 400 * k) by lia.
  replace ((y - 1 + 400 * k) / 4) with ((y - 1) / 4 + 100 * k)
    by (replace (y - 1 + 400 * k) with (y - 1 + (100 * k) * 4) by lia;
        now rewrite Z.div_add).
  replace ((y - 1 + 400 * k) / 100) with ((y - 1) / 100 + 4 * k)
    by (replace (y - 1 + 400 * k) with (y - 1 + (4 * k) * 100) by lia;
        now rewrite Z.div_add).
  replace ((y - 1 + 400 * k) / 400) with ((y - 1) / 400 + k)
    by (replace (y - 1 + 400 * k) with (y - 1 + k * 400) by lia;
        now rewrite Z.div_add).
  lia.
Qed.

Lemma ymd2ord_period y m d k :
  ymd2ord (y + 400 * k) m d = ymd2ord y m d + 146097 * k.
Proof.
  unfold ymd2ord, days_before_month.
  rewrite days_before_year_period, is_leap_period. lia.
Qed.

Lemma days_in_month_period y m k :
  days_in_month (y + 400 * k) m = days_in_month y m.
Proof. unfold days_in_month. now rewrite is_leap_period. Qed.

Lemma ord2ymd_period n k :
  ord2ymd (n + 146097 * k)
  = let '(y, m, d) := ord2ymd n in (y + 400 * k, m, d).
Proof.
  unfold ord2ymd. cbv zeta.
  replace (n + 146097 * k - 1) with (n - 1 + k * 146097) by lia.
  rewrite Z.div_add by lia. rewrite Z_mod_plus_full.
  repeat match goal with
         | |- context [if ?b then _ else _] => destruct b
         end; f_equal; try f_equal; lia.
Qed.

Lemma ord_ok_all n : ord_ok n = true.
Proof.
  set (k := (n - 1) / 146097).
  set (r := (n - 1) mod 146097 + 1).
  assert (Hn : n = r + 146097 * k).
  { unfold r, k. pose proof (Z.div_mod (n - 1) 146097). lia. }
  assert (Hr : 1 <= r < 1 + Z.of_nat (Z.to_nat 146097)).
  { unfold r. pose proof (Z.mod_pos_bound (n - 1) 146097). lia. }
  pose proof (allZ_spec _ _ _ ord_ok_cycle r Hr) as Hc.
  rewrite Hn. unfold ord_ok in *. rewrite ord2ymd_period.
  destruct (ord2ymd r) as [[y m] d].
  rewrite days_in_month_period, ymd2ord_period.
  repeat (apply andb_prop in Hc as [Hc ?]).
  repeat (apply andb_true_intro; split); try assumption.
  apply Z.eqb_eq. apply Z.eqb_eq in H. lia.
Qed.

(** [ord2ymd] yields a date of the calendar, and [ymd2ord] inverts it. *)
Lemma ord2ymd_correct n y m d :
  ord2ymd n = (y, m, d) ->
  1 <= m <= 12 /\ 1 <= d <= days_in_month y m /\ ymd2ord y m d = n.
Proof.
  intros E. pose proof (ord_ok_all n) as H. unfold ord_ok in H.
  rewrite E in H.
  repeat (apply andb_prop in H as [H ?]).
  repeat match goal with
         | H : (_ <=? _) = true |- _ => apply Z.leb_le in H
         | H : (_ =? _) = true |- _ => apply Z.eqb_eq in H
         end.
  lia.
Qed.

Lemma days_before_year_succ y :
  days_before_year (y + 1)
  = days_before_year y + 365 + (if is_leap y then 1 else 0).
Proof.
  unfold days_before_year, is_leap. cbv zeta.
  replace (y + 1 - 1) with y by lia.
  destruct (Z.eqb_spec (y mod 4) 0), (Z.eqb_spec (y mod 100) 0),
    (Z.eqb_spec (y mod 400) 0); simpl; Z.div_mod_to_equations; lia.
Qed.

Lemma days_before_year_mono y y' :
  y <= y' -> days_before_year y <= days_before_year y'.
Proof.
  unfold days_before_year. cbv zeta. intros H.
  Z.div_mod_to_equations. lia.
Qed.

(** A date of the calendar lies within its year. *)
Lemma ymd2ord_in_year y m d :
  1 <= m <= 12 -> 1 <= d <= days_in_month y m ->
  days_before_year y < ymd2ord y m d <= days_before_year (y + 1).
Proof.
  intros Hm Hd. rewrite days_before_year_succ.
  unfold ymd2ord, days_before_month, days_in_month in *.
  assert (Hc : m = 1 \/ m = 2 \/ m = 3 \/ m = 4 \/ m = 5 \/ m = 6 \/ m = 7
               \/ m = 8 \/ m = 9 \/ m = 10 \/ m = 11 \/ m = 12) by lia.
  destruct (is_leap y);
    repeat (destruct Hc as [->|Hc]); try subst m; simpl in *; lia.
Qed.

Lemma gmtime_eq t y m d :
  ord2ymd (t / 86400 + epoch_ordinal) = (y, m, d) ->
  gmtime t = DateTime y m d ((t mod 86400) / 3600)
               (((t mod 86400) mod 3600) / 60) ((t mod 86400) mod 60).
Proof. intros E. unfold gmtime. rewrite E. reflexivity. Qed.

Lemma gmtime_fields t :
  1 <= month (gmtime t) <= 12
  /\ 1 <= day (gmtime t) <= days_in_month (year (gmtime t)) (month (gmtime t))
  /\ 0 <= hour (gmtime t) < 24 /\ 0 <= minute (gmtime t) < 60
  /\ 0 <= second (gmtime t) < 60
  /\ timegm (gmtime t) = t.
Proof.
  destruct (ord2ymd (t / 86400 + epoch_ordinal)) as [[y m] d] eqn:E.
  rewrite (gmtime_eq _ _ _ _ E).
  apply ord2ymd_correct in E as (Hm & Hd & Ho).
  unfold timegm. cbn [year month day hour minute second].
  rewrite Ho. unfold epoch_ordinal.
  repeat split; try lia; Z.div_mod_to_equations; lia.
Qed.

Lemma days_before_year_1 : days_before_year 1 = 0.
Proof. vm_compute. reflexivity. Qed.

Lemma days_before_year_10000 : days_before_year 10000 = 3652059.
Proof. vm_compute. reflexivity. Qed.

Lemma year_range_of_ordinal y o s t :
  days_before_year y < o <= days_before_year (y + 1) ->
  0 <= s < 86400 ->
  (o - 719163) * 86400 + s = t ->
  1 <= y <= 9999 <-> -62135596800 <= t <= 253402300799.
Proof.
  intros Ho Hs Ht.
  pose proof days_before_year_1 as H1.
  pose proof days_before_year_10000 as H2.
  split; intros H.
  - pose proof (days_before_year_mono 1 y ltac:(lia)).
    pose proof (days_before_year_mono (y + 1) 10000 ltac:(lia)).
    lia.
  - destruct (Z_lt_le_dec y 1).
    + pose proof (days_before_year_mono (y + 1) 1 ltac:(lia)). lia.
    + destruct (Z_lt_le_dec 9999 y); [|lia].
      pose proof (days_before_year_mono 10000 y ltac:(lia)). lia.
Qed.

(** The year is in 1..9999 exactly on the timestamps from
    0001-01-01 00:00:00 to 9999-12-31 23:59:59. *)
Lemma gmtime_year_range t :
  1 <= year (gmtime t) <= 9999 <-> min_timestamp <= t <= max_timestamp.
Proof.
  pose proof (gmtime_fields t) as H. revert H.
  generalize (gmtime t). intros dt (Hm & Hd & Hh & Hmi & Hs & Ht).
  pose proof (ymd2ord_in_year _ _ _ Hm Hd) as Ho.
  unfold min_timestamp, max_timestamp.
  apply (year_range_of_ordinal _ _
           (hour dt * 3600 + minute dt * 60 + second dt) t Ho); [lia|].
  unfold timegm, epoch_ordinal in Ht. lia.
Qed.

(** A year whose [tm_year] fits a C [int] is in 1..9999 exactly when the
    sum [tm_year + 1900] made in a C [int] is. *)
Lemma c_int_year y :
  - 2 ^ 31 <= y - 1900 <= 2 ^ 31 - 1 ->
  (1 <= c_int y <= 9999 <-> 1 <= y <= 9999)
  /\ (1 <= y <= 9999 -> c_int y = y).
Proof.
  unfold c_int.
  change (2 ^ 31) with 2147483648. change (2 ^ 32) with 4294967296.
  intros H. split; [split|]; intros Hy; Z.div_mod_to_equations; lia.
Qed.

Lemma fromtimestamp_utc_ok t :
  min_timestamp <= t <= max_timestamp ->
  fromtimestamp_utc t = Ok (gmtime t).
Proof.
  intros H. pose proof (proj2 (gmtime_year_range t) H) as Hy.
  unfold fromtimestamp_utc, time_t_min, time_t_max, int_min, int_max.
  unfold min_timestamp, max_timestamp in H.
  destruct (Z.ltb_spec t (- 2 ^ 63)); [lia|].
  destruct (Z.ltb_spec (2 ^ 63 - 1) t); [lia|]. simpl.
  revert Hy. generalize (gmtime t). intros dt Hy.
  destruct (Z.ltb_spec (year dt - 1900) (- 2 ^ 31)); [lia|].
  destruct (Z.ltb_spec (2 ^ 31 - 1) (year dt - 1900)); [lia|].
  cbn [orb]. cbv zeta.
  rewrite (proj2 (c_int_year (year dt) ltac:(lia)) Hy).
  destruct (Z.ltb_spec (year dt) 1); [lia|].
  destruct (Z.ltb_spec 9999 (year dt)); [lia|]. reflexivity.
Qed.

Lemma fromtimestamp_utc_raises t :
  ~ (min_timestamp <= t <= max_timestamp) ->
  exists e, fromtimestamp_utc t = Raise e.
Proof.
  intros H. rewrite <- gmtime_year_range in H.
  unfold fromtimestamp_utc, int_min, int_max.
  destruct (_ || _); [eauto|]. cbv zeta.
  revert H. generalize (gmtime t). intros dt H.
  destruct (Z.ltb_spec (year dt - 1900) (- 2 ^ 31)); [cbn [orb]; eauto|].
  destruct (Z.ltb_spec (2 ^ 31 - 1) (year dt - 1900)); [cbn [orb]; eauto|].
  cbn [orb].
  destruct (Z.ltb_spec (c_int (year dt)) 1); [cbn [orb]; eauto|].
  destruct (Z.ltb_spec 9999 (c_int (year dt))); [cbn [orb]; eauto|].
  exfalso. apply H. apply (c_int_year (year dt)); lia.
Qed.

Lemma fromtimestamp_utc_inv t dt :
  fromtimestamp_utc t = Ok dt ->
  dt = gmtime t /\ min_timestamp <= t <= max_timestamp.
Proof.
  intros E.
  destruct (decide (min_timestamp <= t <= max_timestamp)) as [H|H].
  - rewrite (fromtimestamp_utc_ok t H) in E. inversion E. auto.
  - destruct (fromtimestamp_utc_raises t H) as [e He]. congruence.
Qed.

Lemma gmtime_valid t :
  min_timestamp <= t <= max_timestamp -> valid_datetime (gmtime t).
Proof.
  intros H. pose proof (proj2 (gmtime_year_range t) H).
  destruct (gmtime_fields t) as (Hm & Hd & Hh & Hmi & Hs & _).
  unfold valid_datetime. tauto.
Qed.

Lemma days_before_year_1000 : days_before_year 1000 = 364877.
Proof. vm_compute. reflexivity. Qed.

(** The year has four digits or more exactly from 1000-01-01 00:00:00
    on. *)
Lemma gmtime_year_1000 t :
  1000 <= year (gmtime t) <-> -30610224000 <= t.
Proof.
  pose proof (gmtime_fields t) as H. revert H.
  generalize (gmtime t). intros dt (Hm & Hd & Hh & Hmi & Hs & Ht).
  pose proof (ymd2ord_in_year _ _ _ Hm Hd) as Ho.
  pose proof days_before_year_1000 as H1000.
  unfold timegm, epoch_ordinal in Ht.
  revert Ho Ht. generalize (ymd2ord (year dt) (month dt) (day dt)).
  intros o Ho Ht. split; intros H.
  - pose proof (days_before_year_mono 1000 (year dt) H). lia.
  - destruct (Z_lt_le_dec (year dt) 1000) as [Hlt|]; [|assumption].
    pose proof (days_before_year_mono (year dt + 1) 1000 ltac:(lia)). lia.
Qed.

(** *** The layout of [strftime] *)

Lemma two_digits_all : allZ (Z.to_nat 100) 0 two_digits_ok = true.
Proof. vm_cast_no_check (eq_refl true). Qed.

Lemma year_digits_all : allZ (Z.to_nat 9999) 1 year_digits_ok = true.
Proof. vm_cast_no_check (eq_refl true). Qed.

Lemma read_zfill_2 n acc rest :
  0 <= n < 100 ->
  read_digits 2 acc (zfill 2 n +:+ rest) = Some (acc * 100 + n, rest)
  /\ String.length (zfill 2 n) = 2%nat.
Proof.
  intros Hn.
  pose proof (allZ_spec _ _ _ two_digits_all n ltac:(lia)) as H.
  unfold two_digits_ok in H.
  destruct (zfill 2 n) as [|a [|b [|? ?]]]; try discriminate.
  destruct (digit_value a) as [va|] eqn:Ha; [|discriminate].
  destruct (digit_value b) as [vb|] eqn:Hb; [|discriminate].
  apply Z.eqb_eq in H. split; [|reflexivity].
  simpl. rewrite Ha, Hb. do 2 f_equal. lia.
Qed.

Lemma days_in_month_le y m : 1 <= m <= 12 -> days_in_month y m <= 31.
Proof.
  intros Hm. unfold days_in_month.
  assert (Hc : m = 1 \/ m = 2 \/ m = 3 \/ m = 4 \/ m = 5 \/ m = 6 \/ m = 7
               \/ m = 8 \/ m = 9 \/ m = 10 \/ m = 11 \/ m = 12) by lia.
  destruct (is_leap y);
    repeat (destruct Hc as [->|Hc]); try subst m; simpl; lia.
Qed.

Lemma append_cons c (s1 s2 : string) :
  String c s1 +:+ s2 = String c (s1 +:+ s2).
Proof. reflexivity. Qed.

Lemma append_nil_r (s : string) : s +:+ "" = s.
Proof.
  induction s as [|c s IH]; [reflexivity|].
  rewrite append_cons. now rewrite IH.
Qed.

Lemma append_assoc (s1 s2 s3 : string) :
  (s1 +:+ s2) +:+ s3 = s1 +:+ (s2 +:+ s3).
Proof.
  induction s1 as [|c s1 IH]; [reflexivity|].
  rewrite !append_cons. now rewrite IH.
Qed.

Lemma length_append (s1 s2 : string) :
  String.length (s1 +:+ s2) = (String.length s1 + String.length s2)%nat.
Proof.
  induction s1 as [|c s1 IH]; [reflexivity|].
  rewrite append_cons. cbn [String.length]. now rewrite IH.
Qed.

Lemma read_char_head c rest :
  read_char c (String c "" +:+ rest) = Some rest.
Proof.
  change (String c "" +:+ rest) with (String c rest).
  unfold read_char. now rewrite Ascii.eqb_refl.
Qed.

(** Reading a text that starts with digits. *)
Lemma digit_value_dash : digit_value "-"%char = None.
Proof. reflexivity. Qed.

Lemma read_number_digits d : forall acc v rest,
  digits_value acc d = Some v ->
  read_number acc (d +:+ String "-"%char rest) = (v, String "-"%char rest).
Proof.
  induction d as [|c d IH]; intros acc v rest H.
  - injection H as <-.
    change ("" +:+ String "-"%char rest) with (String "-"%char rest).
    cbn [read_number]. now rewrite digit_value_dash.
  - rewrite append_cons. cbn [digits_value read_number] in *.
    destruct (digit_value c) as [vc|]; [|discriminate].
    cbn [mbind option_bind] in H. now apply IH.
Qed.



(** [str(y)] for a year from 1 to 9999. *)
Lemma year_digits y :
  1 <= y <= 9999 ->
  digits_value 0 (pretty y) = Some y
  /\ String.length (pretty y) = year_width y
  /\ needs_quotes (pretty y) = false.
Proof.
  intros Hy.
  pose proof (allZ_spec _ _ _ year_digits_all y ltac:(lia)) as H.
  unfold year_digits_ok in H.
  destruct (digits_value 0 (pretty y)) as [v|]; [|discriminate].
  apply andb_prop in H as [H H3]. apply andb_prop in H as [H1 H2].
  apply Z.eqb_eq in H1. apply Nat.eqb_eq in H2. apply negb_true_iff in H3.
  subst v. auto.
Qed.

Lemma year_width_4 y : 1 <= y <= 9999 -> year_width y = 4%nat <-> 1000 <= y.
Proof.
  intros Hy. unfold year_width.
  destruct (Z.ltb_spec y 10), (Z.ltb_spec y 100), (Z.ltb_spec y 1000);
    split; intros; try discriminate; lia.
Qed.

Lemma year_width_range y : (1 <= year_width y <= 4)%nat.
Proof.
  unfold year_width.
  destruct (y <? 10), (y <? 100), (y <? 1000); lia.
Qed.

(** What follows the year in the text of [strftime] reads back to the
    fields. *)
Lemma read_after_year_strftime y dt :
  1 <= month dt <= 12 -> 1 <= day dt <= 31 ->
  0 <= hour dt < 24 -> 0 <= minute dt < 60 -> 0 <= second dt < 60 ->
  read_after_year y
    ("-" +:+ zfill 2 (month dt) +:+ "-" +:+ zfill 2 (day dt) +:+ " " +:+
     zfill 2 (hour dt) +:+ ":" +:+ zfill 2 (minute dt) +:+ ":" +:+
     zfill 2 (second dt))
  = Some (DateTime y (month dt) (day dt) (hour dt) (minute dt) (second dt)).
Proof.
  intros Hm Hd Hh Hmi Hs. unfold read_after_year.
  rewrite read_char_head. cbn [mbind option_bind].
  rewrite (proj1 (read_zfill_2 (month dt) 0 _ ltac:(lia))).
  cbn [mbind option_bind]. rewrite read_char_head.
  cbn [mbind option_bind].
  rewrite (proj1 (read_zfill_2 (day dt) 0 _ ltac:(lia))).
  cbn [mbind option_bind]. rewrite read_char_head.
  cbn [mbind option_bind].
  rewrite (proj1 (read_zfill_2 (hour dt) 0 _ ltac:(lia))).
  cbn [mbind option_bind]. rewrite read_char_head.
  cbn [mbind option_bind].
  rewrite (proj1 (read_zfill_2 (minute dt) 0 _ ltac:(lia))).
  cbn [mbind option_bind]. rewrite read_char_head.
  cbn [mbind option_bind].
  pose proof (proj1 (read_zfill_2 (second dt) 0 "" ltac:(lia))) as E.
  rewrite append_nil_r in E. rewrite E. reflexivity.
Qed.

(** The text [strftime] produces has the layout [Y-MM-DD HH:MM:SS]:
    reading it back gives the fields, and it has 15 characters and those
    of the year. *)
Lemma read_datetime_strftime dt :
  valid_datetime dt ->
  read_datetime (strftime dt) = Some dt
  /\ String.length (strftime dt) = (year_width (year dt) + 15)%nat.
Proof.
  intros (Hy & Hm & Hd & Hh & Hmi & Hs).
  pose proof (days_in_month_le (year dt) (month dt) Hm) as Hd'.
  destruct (year_digits (year dt) Hy) as (Hv & Hl & _).
  split.
  - unfold read_datetime, strftime.
    change ("-" +:+ ?x) with (String "-"%char x).
    rewrite (read_number_digits _ _ _ _ Hv).
    change (String "-"%char ?x) with ("-" +:+ x).
    rewrite read_after_year_strftime by lia. destruct dt; reflexivity.
  - unfold strftime. rewrite !length_append, Hl.
    rewrite (proj2 (read_zfill_2 (month dt) 0 "" ltac:(lia))).
    rewrite (proj2 (read_zfill_2 (day dt) 0 "" ltac:(lia))).
    rewrite (proj2 (read_zfill_2 (hour dt) 0 "" ltac:(lia))).
    rewrite (proj2 (read_zfill_2 (minute dt) 0 "" ltac:(lia))).
    rewrite (proj2 (read_zfill_2 (second dt) 0 "" ltac:(lia))).
    cbn [String.length]. lia.
Qed.


End CalendarFacts.

Import CalendarFacts.

(** ** The Formatter *)

Section FormatterFacts.

Lemma format_sample_eq timestamp count :
  format_sample (timestamp, count)
  = dt ← fromtimestamp_utc (spec_seconds timestamp);
    mret (spec_seconds timestamp, strftime dt, count).
Proof.
  unfold format_sample, spec_seconds.
  change (10 ^ 12) with 1000000000000.
  destruct (Z.ltb_spec 1000000000000 timestamp), (decide _);
    try lia; reflexivity.
Qed.

Lemma format_sample_ok sample :
  valid_epoch_seconds (spec_seconds sample.1) ->
  format_sample sample = Ok (spec_row sample).
Proof.
  destruct sample as [t c]. intros H. rewrite format_sample_eq.
  rewrite fromtimestamp_utc_ok by exact H. reflexivity.
Qed.

Lemma format_sample_raises sample :
  ~ valid_epoch_seconds (spec_seconds sample.1) ->
  exists e, format_sample sample = Raise e.
Proof.
  destruct sample as [t c]. intros H. rewrite format_sample_eq.
  destruct (fromtimestamp_utc_raises (spec_seconds t) H) as [e ->]. eauto.
Qed.

Lemma format_sample_inv sample row :
  format_sample sample = Ok row ->
  row = spec_row sample /\ valid_epoch_seconds (spec_seconds sample.1).
Proof.
  intros E. destruct (decide (valid_epoch_seconds (spec_seconds sample.1)))
    as [H|H].
  - rewrite (format_sample_ok _ H) in E. inversion E. auto.
  - destruct (format_sample_raises _ H) as [e He]. congruence.
Qed.

(** The loop appends to what [formatted] already holds. *)
Lemma format_loop_acc data : forall formatted,
  format_loop data formatted
  = rows ← format_loop data []; mret (formatted ++ rows).
Proof.
  induction data as [|sample data IH]; intros formatted.
  - simpl. now rewrite app_nil_r.
  - simpl. destruct (format_sample sample) as [row|e]; [|reflexivity].
    simpl. rewrite (IH (formatted ++ [row])), (IH [row]).
    destruct (format_loop data []) as [rows|e]; [|reflexivity].
    simpl. now rewrite <- app_assoc.
Qed.

Lemma format_data_nil : format_data [] = Ok [].
Proof. reflexivity. Qed.

Lemma format_data_cons sample data :
  format_data (sample :: data)
  = row ← format_sample sample; rows ← format_data data; mret (row :: rows).
Proof.
  unfold format_data. simpl.
  destruct (format_sample sample) as [row|e]; [|reflexivity].
  simpl. now rewrite format_loop_acc.
Qed.

Lemma format_data_ok data :
  Forall (fun sample => valid_epoch_seconds (spec_seconds sample.1)) data ->
  format_data data = Ok (map spec_row data).
Proof.
  induction 1 as [|sample data H _ IH]; [reflexivity|].
  rewrite format_data_cons, (format_sample_ok _ H), IH. reflexivity.
Qed.

Lemma format_data_inv data : forall rows,
  format_data data = Ok rows ->
  rows = map spec_row data
  /\ Forall (fun sample => valid_epoch_seconds (spec_seconds sample.1)) data.
Proof.
  induction data as [|sample data IH]; intros rows E.
  - inversion E. auto.
  - rewrite format_data_cons in E.
    destruct (format_sample sample) as [row|e] eqn:Es; [|discriminate].
    destruct (format_data data) as [rows'|e] eqn:Ed; [|discriminate].
    apply format_sample_inv in Es as [-> Hv].
    destruct (IH _ eq_refl) as [-> Hall].
    inversion E. auto.
Qed.

End FormatterFacts.

(** C1 (as amended): for every list of raw samples whose normalized
    timestamps are valid seconds-since-epoch values, the Formatter returns a
    list of the same length whose i-th row is the formatted i-th sample, and
    the player counts come out in the order they went in. *)
Theorem format_data_keeps_rows (data : list (Z * Z)) :
  Forall (fun sample => valid_epoch_seconds (spec_seconds sample.1)) data ->
  exists rows,
    format_data data = Ok rows
    /\ List.length rows = List.length data
    /\ (forall i sample, data !! i = Some sample ->
          exists row, format_sample sample = Ok row /\ rows !! i = Some row)
    /\ map (fun row => row.2) rows = map snd data.
Proof.
  intros H. exists (map spec_row data). split; [now apply format_data_ok|].
  split; [apply List.length_map|]. split.
  - intros i sample Hi. exists (spec_row sample). split.
    + apply format_sample_ok.
      rewrite Forall_forall in H. apply H. eapply list_elem_of_lookup_2, Hi.
    + rewrite list_lookup_fmap, Hi. reflexivity.
  - rewrite map_map. reflexivity.
Qed.

Lemma format_data_keeps_rows_witness :
  Forall (fun sample => valid_epoch_seconds (spec_seconds sample.1))
    [(1700000000, 10); (1700003600000, 12)]
  /\ exists rows,
       format_data [(1700000000, 10); (1700003600000, 12)] = Ok rows
       /\ List.length rows = List.length [(1700000000, 10); (1700003600000, 12)]
       /\ (forall i sample,
             [(1700000000, 10); (1700003600000, 12)] !! i = Some sample ->
             exists row, format_sample sample = Ok row /\ rows !! i = Some row)
       /\ map (fun row => row.2) rows
          = map snd [(1700000000, 10); (1700003600000, 12)].
Proof.
  assert (H : Forall (fun sample => valid_epoch_seconds (spec_seconds sample.1))
                [(1700000000, 10); (1700003600000, 12)]).
  { repeat constructor; vm_compute; intros; discriminate. }
  split; [exact H|]. exact (format_data_keeps_rows _ H).
Defined.

(** C1 as stated fails: a raw sample whose timestamp lies beyond the year
    9999 makes the Formatter raise, so no list is returned. *)
Lemma format_data_rejects_year_33658 :
  format_data [(1000000000000000, 5)]
  = Raise (Exn ValueError "year 33658 is out of range")
  /\ ~ (exists rows,
          format_data [(1000000000000000, 5)] = Ok rows
          /\ List.length rows = List.length [(1000000000000000, 5)]).
Proof.
  assert (E : format_data [(1000000000000000, 5)]
              = Raise (Exn ValueError "year 33658 is out of range"))
    by (vm_compute; reflexivity).
  split; [exact E|]. intros (rows & H & _). rewrite E in H. discriminate.
Qed.

(** C2: every timestamp the Formatter returns is the sample's timestamp
    divided by 1000 when it exceeds 10^12 and unchanged otherwise (the
    Formatter raises only when such a value is no valid datetime);
    1700000000 stays and 1700000000000 becomes 1700000000. *)
Theorem format_data_normalizes :
  (forall data : list (Z * Z),
     match format_data data with
     | Ok rows =>
         map (fun row => row.1.1) rows
         = map (fun sample =>
                  if decide (sample.1 > 10 ^ 12) then sample.1 `div` 1000
                  else sample.1) data
     | Raise _ =>
         Exists (fun sample =>
                   ~ valid_epoch_seconds
                       (if decide (sample.1 > 10 ^ 12) then sample.1 `div` 1000
                        else sample.1)) data
     end)
  /\ (forall count,
        format_data [(1700000000, count)]
        = Ok [(1700000000, "2023-11-14 22:13:20", count)])
  /\ (forall count,
        format_data [(1700000000000, count)]
        = Ok [(1700000000, "2023-11-14 22:13:20", count)]).
Proof.
  split; [|split; intros count; vm_compute; reflexivity].
  intros data. fold (spec_seconds).
  change (fun sample : Z * Z =>
            if decide (sample.1 > 10 ^ 12) then sample.1 `div` 1000
            else sample.1) with (fun sample : Z * Z => spec_seconds sample.1).
  destruct (format_data data) as [rows|e] eqn:E.
  - apply format_data_inv in E as [-> _]. rewrite map_map. reflexivity.
  - apply not_Forall_Exists; [intros x; apply _|].
    intros H. rewrite (format_data_ok _ H) in E. discriminate.
Qed.




(** When [format_data] raises, it is on the first sample whose normalized
    timestamp is no valid datetime, with that sample's exception. *)
Lemma format_data_raise_inv data : forall e,
  format_data data = Raise e ->
  exists before sample after,
    data = before ++ sample :: after
    /\ Forall (fun sample => valid_epoch_seconds (spec_seconds sample.1)) before
    /\ format_sample sample = Raise e.
Proof.
  induction data as [|sample data IH]; intros e E; [discriminate|].
  rewrite format_data_cons in E.
  destruct (format_sample sample) as [row|e'] eqn:Es.
  - destruct (format_data data) as [rows|e''] eqn:Ed; [discriminate|].
    injection E as ->.
    destruct (IH _ eq_refl) as (before & bad & after & -> & Hb & Hbad).
    exists (sample :: before), bad, after.
    apply format_sample_inv in Es as [_ Hv]. auto.
  - injection E as ->. exists [], sample, data. auto.
Qed.

(** C8: two runs of the Formatter on the same input give identical output:
    the output is decided by the samples alone, either the rows of all of
    them in order, or the exception of the first sample that has no valid
    datetime. *)
Theorem format_data_repeatable (data : list (Z * Z)) :
  let first := format_data data in
  let second := format_data data in
  first = second
  /\ (first = Ok (map spec_row data)
      \/ exists before sample after e,
           data = before ++ sample :: after
           /\ Forall (fun sample =>
                        valid_epoch_seconds (spec_seconds sample.1)) before
           /\ format_sample sample = Raise e
           /\ first = Raise e).
Proof.
  cbv zeta. split; [reflexivity|].
  destruct (format_data data) as [rows|e] eqn:E.
  - left. apply format_data_inv in E as [-> _]. reflexivity.
  - right. destruct (format_data_raise_inv _ _ E)
      as (before & sample & after & Hd & Hb & Hs).
    exists before, sample, after, e. auto.
Qed.

(** C10: a timestamp above 10^12 is divided by 1000 exactly once: the value
    handed to the datetime conversion and returned in the row is
    [timestamp / 1000], also when that quotient still exceeds 10^12 (the
    conversion then raises on the quotient, not on a second quotient). *)
Theorem format_data_divides_once :
  (forall timestamp count,
     10 ^ 12 < timestamp ->
     format_data [(timestamp, count)]
     = dt ← fromtimestamp_utc (timestamp `div` 1000);
       mret [(timestamp `div` 1000, strftime dt, count)])
  /\ format_data [(1700000000000000, 42)]
     = Raise (Exn ValueError "year 55840 is out of range")
  /\ (year (gmtime (1700000000000000 `div` 1000)) = 55840
      /\ year (gmtime ((1700000000000000 `div` 1000) `div` 1000)) = 2023).
Proof.
  split; [|split; [|split]; vm_compute; reflexivity].
  intros timestamp count H.
  rewrite format_data_cons, format_sample_eq, format_data_nil.
  unfold spec_seconds. destruct (decide _) as [_|Hn]; [|lia].
  destruct (fromtimestamp_utc _); reflexivity.
Qed.

Lemma format_data_divides_once_witness :
  10 ^ 12 < 1700000000000000
  /\ format_data [(1700000000000000, 42)]
     = dt ← fromtimestamp_utc (1700000000000000 `div` 1000);
       mret [(1700000000000000 `div` 1000, strftime dt, 42)].
Proof.
  assert (H : 10 ^ 12 < 1700000000000000) by reflexivity.
  split; [exact H|].
  exact (proj1 format_data_divides_once 1700000000000000 42 H).
Defined.

(** ** The Fetcher *)

Lemma fetch_chart_data_eq w app_id s :
  fetch_chart_data w app_id s = (exchange w app_id, after_get app_id s).
Proof.
  unfold fetch_chart_data, exchange, after_get, requests_get, lift.
  unfold mbind, io_bind, outcome_bind.
  destruct (http_get w (chart_url app_id)) as [response|e]; [|reflexivity].
  destruct (raise_for_status response) as [[]|e]; [|reflexivity].
  destruct (json_body response) as [data|e]; reflexivity.
Qed.

Lemma chart_data_of_obj d :
  chart_data_of (JObj d)
  = match d !! "data" with
    | Some v => Ok v
    | None => Raise (Exn ValueError "Unexpected data format from SteamCharts.")
    end.
Proof.
  unfold chart_data_of, getitem.
  destruct (d !! "data") as [v|] eqn:E; case_bool_decide as H; try reflexivity.
  - exfalso. apply H. eauto.
  - destruct H as [? ?]. discriminate.
Qed.

Lemma exchange_of_body w app_id response data :
  http_get w (chart_url app_id) = Ok response ->
  raise_for_status response = Ok () ->
  json_body response = Ok data ->
  exchange w app_id = chart_data_of data.
Proof.
  intros Hget Hstatus Hjson. unfold exchange. rewrite Hget.
  cbn [mbind outcome_bind]. now rewrite Hstatus, Hjson.
Qed.

(** C3: when the request succeeds and the body parses to [data], the Fetcher
    returns [data] itself if it is a list, the value under the key [data]
    if it is a dict with that key, and raises the format error in every
    other case. *)
Theorem fetch_chart_data_dispatch w app_id s response data :
  http_get w (chart_url app_id) = Ok response ->
  raise_for_status response = Ok () ->
  json_body response = Ok data ->
  fetch_chart_data w app_id s
  = (match data with
     | JArr l => Ok (JArr l)
     | JObj d =>
         match d !! "data" with
         | Some v => Ok v
         | None =>
             Raise (Exn ValueError "Unexpected data format from SteamCharts.")
         end
     | JNull | JBool _ | JInt _ | JFloat _ | JStr _ =>
         Raise (Exn ValueError "Unexpected data format from SteamCharts.")
     end,
     State (files s) (requests s ++ [chart_url app_id]) (stdout s)).
Proof.
  intros Hget Hstatus Hjson. rewrite fetch_chart_data_eq.
  rewrite (exchange_of_body _ _ _ _ Hget Hstatus Hjson).
  unfold after_get. f_equal.
  destruct data; try reflexivity. apply chart_data_of_obj.
Qed.

Lemma fetch_chart_data_dispatch_witness :
  fetch_chart_data
    (serving (JObj {[ "unexpected" := JBool true ]})) "730" initial
  = (Raise (Exn ValueError "Unexpected data format from SteamCharts."),
     State ∅ ["https://steamcharts.com/app/730/chart-data.json"] []).
Proof.
  exact (fetch_chart_data_dispatch
           (serving (JObj {[ "unexpected" := JBool true ]})) "730" initial
           (Response (chart_url "730") 200 "OK"
              (Ok (JObj {[ "unexpected" := JBool true ]})))
           (JObj {[ "unexpected" := JBool true ]})
           eq_refl eq_refl eq_refl).
Defined.

(** The responses of the specification's examples. *)
Example fetch_chart_data_list :
  fetch_chart_data (serving two_samples) "730" initial
  = (Ok two_samples,
     State ∅ ["https://steamcharts.com/app/730/chart-data.json"] []).
Proof. reflexivity. Qed.

Example fetch_chart_data_data_key :
  fetch_chart_data
    (serving (JObj {[ "data" := JArr [JArr [JInt 1700000000; JInt 5]] ]}))
    "730" initial
  = (Ok (JArr [JArr [JInt 1700000000; JInt 5]]),
     State ∅ ["https://steamcharts.com/app/730/chart-data.json"] []).
Proof. vm_compute. reflexivity. Qed.

(** C9: the value under the key [data] is returned as it is, whatever it
    is: no check that it is a list of pairs, and no format error. *)
Theorem fetch_chart_data_unvalidated w app_id s response d v :
  http_get w (chart_url app_id) = Ok response ->
  raise_for_status response = Ok () ->
  json_body response = Ok (JObj d) ->
  d !! "data" = Some v ->
  fetch_chart_data w app_id s
  = (Ok v, State (files s) (requests s ++ [chart_url app_id]) (stdout s)).
Proof.
  intros Hget Hstatus Hjson Hd. rewrite fetch_chart_data_eq.
  rewrite (exchange_of_body _ _ _ _ Hget Hstatus Hjson).
  now rewrite chart_data_of_obj, Hd.
Qed.

Lemma fetch_chart_data_unvalidated_witness :
  fetch_chart_data (serving (JObj {[ "data" := JNull ]})) "730" initial
  = (Ok JNull, State ∅ ["https://steamcharts.com/app/730/chart-data.json"] [])
  /\ fetch_chart_data (serving (JObj {[ "data" := JInt 5 ]})) "730" initial
     = (Ok (JInt 5),
        State ∅ ["https://steamcharts.com/app/730/chart-data.json"] []).
Proof.
  split.
  - exact (fetch_chart_data_unvalidated
             (serving (JObj {[ "data" := JNull ]})) "730" initial
             (Response (chart_url "730") 200 "OK"
                (Ok (JObj {[ "data" := JNull ]})))
             {[ "data" := JNull ]} JNull eq_refl eq_refl eq_refl eq_refl).
  - exact (fetch_chart_data_unvalidated
             (serving (JObj {[ "data" := JInt 5 ]})) "730" initial
             (Response (chart_url "730") 200 "OK"
                (Ok (JObj {[ "data" := JInt 5 ]})))
             {[ "data" := JInt 5 ]} (JInt 5) eq_refl eq_refl eq_refl eq_refl).
Defined.

(** ** The Writer *)

Section WriterFacts.

Variable w : world.
Variable path : string.

Lemma csv_line_header : csv_line header_fields = spec_header.
Proof. reflexivity. Qed.

(** The quoting of the default dialect is the one the specification-side
    text spells. *)
Lemma is_special_plain c :
  is_special c
  = negb (bool_decide
            (c ∉ [","%char; "034"%char; "013"%char; "010"%char])).
Proof.
  unfold is_special, delimiter, quotechar, CR, LF.
  case_bool_decide as H; cbn [negb].
  - rewrite !not_elem_of_cons in H. destruct H as (H1 & H2 & H3 & H4 & _).
    apply Ascii.eqb_neq in H1, H2, H3, H4. now rewrite H1, H2, H3, H4.
  - rewrite !elem_of_cons in H.
    destruct H as [->|[->|[->|[->|H]]]]; try reflexivity.
    now apply elem_of_nil in H.
Qed.

Lemma needs_quotes_plain s : needs_quotes s = negb (plain s).
Proof.
  induction s as [|c s IH]; [reflexivity|].
  cbn [needs_quotes plain]. rewrite IH, is_special_plain.
  now rewrite negb_andb.
Qed.

Lemma double_quotes_escaped s : double_quotes s = escaped s.
Proof.
  induction s as [|c s IH]; [reflexivity|].
  cbn [double_quotes escaped]. rewrite IH. unfold quotechar.
  destruct (Ascii.eqb_spec c "034"%char) as [->|Hne].
  - now rewrite bool_decide_eq_true_2.
  - now rewrite bool_decide_eq_false_2.
Qed.

Lemma csv_str_spec_field s : csv_str s = spec_field s.
Proof.
  unfold csv_str, spec_field.
  rewrite needs_quotes_plain, double_quotes_escaped.
  destruct (plain s); reflexivity.
Qed.

Lemma csv_line_row row : csv_line (row_fields row) = spec_line row.
Proof.
  destruct row as [[t dt] c]. unfold csv_line, row_fields, spec_line, csv_int.
  cbn [join fst snd]. change (String delimiter ?x) with ("," +:+ x).
  change lineterminator with crlf.
  now rewrite csv_str_spec_field, !append_assoc.
Qed.

Lemma csv_lines_rows data : csv_lines (map row_fields data) = spec_lines data.
Proof.
  induction data as [|row data IH]; [reflexivity|].
  cbn [map csv_lines spec_lines]. now rewrite csv_line_row, IH.
Qed.

Lemma alter_present (f : string -> string) (m : gmap string string) c :
  m !! path = Some c -> alter f path m = <[path := f c]> m.
Proof.
  intros H. apply map_eq. intros p.
  destruct (decide (path = p)) as [<-|Hne].
  - now rewrite lookup_alter_eq, lookup_insert_eq, H.
  - now rewrite lookup_alter_ne, lookup_insert_ne.
Qed.

(** [writerows] either appends every row, or stops at the first write
    that fails and leaves the rows before it. *)
Lemma writerows_spec (rows : list (list string)) : forall n s c,
  files s !! path = Some c ->
  match writerows w path n rows s with
  | (Ok _, s') =>
      (forall k, (k < List.length rows)%nat ->
                 write_fault w path (n + k) = None)
      /\ s' = State (<[path := c +:+ csv_lines rows]> (files s))
                    (requests s) (stdout s)
  | (Raise e, s') =>
      exists k, (k < List.length rows)%nat
                /\ write_fault w path (n + k) = Some e
                /\ (forall j, (j < k)%nat -> write_fault w path (n + j) = None)
                /\ s' = State (<[path := c +:+ csv_lines (take k rows)]>
                                 (files s))
                              (requests s) (stdout s)
  end.
Proof.
  induction rows as [|fields rows IH]; intros n s c Hc.
  - cbn. split; [intros k Hk; cbn in Hk; lia|].
    rewrite append_nil_r, insert_id by exact Hc. now destruct s.
  - cbn [writerows]. unfold mbind, io_bind, file_write.
    destruct (write_fault w path n) as [e|] eqn:Hn.
    + exists 0%nat. cbn [take csv_lines List.length].
      rewrite Nat.add_0_r, append_nil_r, insert_id by exact Hc.
      repeat split; [lia|exact Hn|intros j Hj; lia|now destruct s].
    + set (s1 := State _ _ _).
      assert (Hc1 : files s1 !! path = Some (c +:+ csv_line fields)).
      { unfold s1. cbn [files]. rewrite (alter_present _ _ c Hc).
        now rewrite lookup_insert_eq. }
      specialize (IH (S n) s1 _ Hc1).
      destruct (writerows w path (S n) rows s1) as [[[]|e] s'].
      * destruct IH as [Hall ->]. split.
        -- intros [|k] Hk; [now rewrite Nat.add_0_r|].
           replace (n + S k)%nat with (S n + k)%nat by lia.
           apply Hall. cbn in Hk. lia.
        -- unfold s1. cbn [files requests stdout csv_lines].
           rewrite (alter_present _ _ c Hc), insert_insert_eq.
           now rewrite append_assoc.
      * destruct IH as (k & Hk & Hf & Hbefore & ->).
        exists (S k). cbn [List.length take csv_lines].
        replace (n + S k)%nat with (S n + k)%nat by lia.
        repeat split; [lia|exact Hf| |].
        -- intros [|j] Hj; [now rewrite Nat.add_0_r|].
           replace (n + S j)%nat with (S n + j)%nat by lia.
           apply Hbefore. lia.
        -- unfold s1. cbn [files requests stdout].
           rewrite (alter_present _ _ c Hc), insert_insert_eq.
           now rewrite append_assoc.
Qed.

(** [save_rows] returns normally exactly when nothing fails, and then the
    file holds the whole text; when it raises, only the file at [path] can
    have changed. *)
Lemma save_rows_spec rows s :
  match save_rows w rows path s with
  | (Ok _, s') =>
      open_fault w path = None
      /\ (forall k, (k <= List.length rows)%nat -> write_fault w path k = None)
      /\ close_fault w path = None
      /\ s' = State (<[path := spec_header +:+ csv_lines rows]> (files s))
                    (requests s) (stdout s)
  | (Raise e, s') =>
      (open_fault w path = Some e /\ s' = s)
      \/ (open_fault w path = None
          /\ (close_fault w path = Some e
              \/ exists k, (k <= List.length rows)%nat
                           /\ write_fault w path k = Some e)
          /\ exists text,
               s' = State (<[path := text]> (files s))
                          (requests s) (stdout s))
  end.
Proof.
  unfold save_rows, with_open_w.
  destruct (open_fault w path) as [e|] eqn:Ho; [left; auto|].
  unfold mbind, io_bind, file_write at 1.
  destruct (write_fault w path 0) as [e|] eqn:H0.
  - cbn [files requests stdout].
    destruct (close_fault w path) as [e'|] eqn:Hcl; right;
      (split; [reflexivity|]); (split; [|eauto]).
    + now left.
    + right. exists 0%nat. split; [lia|exact H0].
  - cbn [files requests stdout].
    set (s1 := State _ _ _).
    assert (Hc1 : files s1 !! path = Some spec_header).
    { unfold s1. cbn [files].
      rewrite (alter_present _ _ "" (lookup_insert_eq _ _ _)).
      now rewrite lookup_insert_eq. }
    pose proof (writerows_spec rows 1 s1 _ Hc1) as Hw.
    destruct (writerows w path 1 rows s1) as [[[]|e] s'].
    + destruct Hw as [Hall ->].
      assert (Hs' : State (<[path := spec_header +:+ csv_lines rows]>
                             (files s1)) (requests s1) (stdout s1)
                    = State (<[path := spec_header +:+ csv_lines rows]>
                               (files s)) (requests s) (stdout s)).
      { unfold s1. cbn [files requests stdout].
        rewrite (alter_present _ _ "" (lookup_insert_eq _ _ _)).
        now rewrite !insert_insert_eq. }
      rewrite Hs'.
      destruct (close_fault w path) as [e'|] eqn:Hcl.
      * right. split; [reflexivity|]. split; [now left|eauto].
      * repeat split; try reflexivity.
        intros [|k] Hk; [exact H0|]. apply (Hall k). lia.
    + destruct Hw as (k & Hk & Hf & _ & ->).
      assert (Hs' : exists text,
                 State (<[path := spec_header +:+ csv_lines (take k rows)]>
                          (files s1)) (requests s1) (stdout s1)
                 = State (<[path := text]> (files s))
                         (requests s) (stdout s)).
      { eexists. unfold s1. cbn [files requests stdout].
        rewrite (alter_present _ _ "" (lookup_insert_eq _ _ _)).
        now rewrite !insert_insert_eq. }
      destruct (close_fault w path) as [e'|] eqn:Hcl; right;
        (split; [reflexivity|]); (split; [|exact Hs']).
      * now left.
      * right. exists (S k). split; [lia|exact Hf].
Qed.

Lemma save_rows_ok rows s :
  open_fault w path = None ->
  (forall k, (k <= List.length rows)%nat -> write_fault w path k = None) ->
  close_fault w path = None ->
  save_rows w rows path s
  = (Ok (), State (<[path := spec_header +:+ csv_lines rows]> (files s))
                  (requests s) (stdout s)).
Proof.
  intros Ho Hw Hc. pose proof (save_rows_spec rows s) as H.
  destruct (save_rows w rows path s) as [[[]|e] s'].
  - now destruct H as (_ & _ & _ & ->).
  - exfalso. destruct H as [[H _]|(_ & [H|(k & Hk & H)] & _)].
    + congruence.
    + congruence.
    + rewrite (Hw k Hk) in H. discriminate.
Qed.

End WriterFacts.



(** *** Rows written from formatted samples need no quoting *)

Lemma two_digits_plain_all : allZ (Z.to_nat 100) 0 two_digits_plain = true.
Proof. vm_cast_no_check (eq_refl true). Qed.

Lemma needs_quotes_append (s1 s2 : string) :
  needs_quotes (s1 +:+ s2) = needs_quotes s1 || needs_quotes s2.
Proof.
  induction s1 as [|c s1 IH]; [reflexivity|].
  rewrite append_cons. cbn [needs_quotes]. rewrite IH.
  now rewrite orb_assoc.
Qed.

Lemma csv_str_strftime dt :
  valid_datetime dt -> csv_str (strftime dt) = strftime dt.
Proof.
  intros (Hy & Hm & Hd & Hh & Hmi & Hs).
  pose proof (days_in_month_le (year dt) (month dt) Hm) as Hd'.
  assert (H2 : forall n, 0 <= n < 100 -> needs_quotes (zfill 2 n) = false).
  { intros n Hn.
    pose proof (allZ_spec _ _ _ two_digits_plain_all n ltac:(lia)) as H.
    unfold two_digits_plain in H. now apply negb_true_iff in H. }
  destruct (year_digits (year dt) Hy) as (_ & _ & H4).
  unfold csv_str. replace (needs_quotes (strftime dt)) with false; [reflexivity|].
  unfold strftime. rewrite !needs_quotes_append, H4, !H2 by lia. reflexivity.
Qed.

(** The line written for a formatted sample: three plain fields. *)
Lemma spec_line_formatted sample :
  valid_epoch_seconds (spec_seconds sample.1) ->
  spec_line (spec_row sample)
  = pretty (spec_seconds sample.1) +:+ ","
    +:+ strftime (gmtime (spec_seconds sample.1)) +:+ ","
    +:+ pretty sample.2 +:+ crlf.
Proof.
  intros H. unfold spec_line, spec_row. cbn [fst snd].
  rewrite <- csv_str_spec_field.
  now rewrite csv_str_strftime by now apply gmtime_valid.
Qed.

(** ** The entry point *)

Lemma try_body_eq w app_id s :
  try_body w app_id s
  = match exchange w app_id with
    | Raise e => (Raise e, after_get app_id s)
    | Ok raw =>
        match formatted_rows w raw with
        | Raise e => (Raise e, after_get app_id s)
        | Ok rows =>
            match save_rows w rows (csv_filename app_id)
                    (after_get app_id s) with
            | (Ok _, s2) => print ("Data saved to " +:+ csv_filename app_id) s2
            | (Raise e, s2) => (Raise e, s2)
            end
        end
    end.
Proof.
  unfold try_body. unfold mbind at 1. unfold io_bind at 1.
  rewrite fetch_chart_data_eq.
  destruct (exchange w app_id) as [raw|e]; [|reflexivity].
  cbv zeta. unfold formatted_rows.
  destruct (as_raw_samples raw) as [data|].
  - unfold mbind, io_bind, outcome_bind, lift.
    destruct (format_data data) as [rows|e]; [|reflexivity].
    unfold save_to_csv, mret, outcome_ret.
    destruct (save_rows w (map row_fields rows) (csv_filename app_id)
                (after_get app_id s)) as [[[]|e] s2]; reflexivity.
  - unfold mbind, io_bind, lift.
    destruct (dynamic_format w raw) as [rows|e]; [|reflexivity].
    destruct (save_rows w rows (csv_filename app_id) (after_get app_id s))
      as [[[]|e] s2]; reflexivity.
Qed.

(** C7: with an argument count other than one the program prints the usage
    message, exits with status 1, and has issued no request. *)
Theorem main_usage w (argv : list string) s :
  List.length argv <> 2%nat ->
  main w argv s
  = (1, State (files s) (requests s)
          (stdout s ++ ["Usage: python steamcharts_to_csv.py <app_id>"])).
Proof.
  intros H. destruct argv as [|prog [|app_id [|extra argv]]];
    try reflexivity. now contradict H.
Qed.

Lemma main_usage_witness :
  main (serving (JArr [])) ["steamcharts_to_csv.py"] initial
  = (1, State ∅ [] ["Usage: python steamcharts_to_csv.py <app_id>"])
  /\ main (serving (JArr [])) ["steamcharts_to_csv.py"; "730"; "440"] initial
     = (1, State ∅ [] ["Usage: python steamcharts_to_csv.py <app_id>"]).
Proof.
  split.
  - exact (main_usage (serving (JArr [])) ["steamcharts_to_csv.py"] initial
             ltac:(discriminate)).
  - exact (main_usage (serving (JArr []))
             ["steamcharts_to_csv.py"; "730"; "440"] initial
             ltac:(discriminate)).
Defined.

(** C6: with one argument the program issues exactly one request and then
    either
    - exits with status 0, having written the whole CSV text to
      [steamcharts_{app_id}.csv] and printed [Data saved to <filename>], or
    - exits with status 1, having printed [Error: <message>] for the
      exception that the fetch, the formatting or the write raised.
    It always ends in one of the two, and status 0 never goes with a file
    that lacks rows. *)
Theorem main_reports w prog app_id s :
  exists status s',
    main w [prog; app_id] s = (status, s')
    /\ requests s' = requests s ++ [chart_url app_id]
    /\ ((status = 0
         /\ stdout s'
            = stdout s ++ ["Data saved to steamcharts_" +:+ app_id +:+ ".csv"]
         /\ exists raw rows,
              exchange w app_id = Ok raw
              /\ formatted_rows w raw = Ok rows
              /\ save_rows w rows ("steamcharts_" +:+ app_id +:+ ".csv")
                   (after_get app_id s)
                 = (Ok (), State (files s') (requests s') (stdout s))
              /\ files s'
                 = <["steamcharts_" +:+ app_id +:+ ".csv" :=
                     "Timestamp,Datetime (UTC),PlayerCount" +:+ lineterminator
                     +:+ csv_lines rows]> (files s)
              /\ (forall data,
                    as_raw_samples raw = Some data ->
                    exists formatted,
                      format_data data = Ok formatted
                      /\ csv_lines rows = spec_lines formatted))
        \/ (status = 1
            /\ exists e,
                 stdout s' = stdout s ++ ["Error: " +:+ exn_message e]
                 /\ ((exchange w app_id = Raise e /\ files s' = files s)
                     \/ (exists raw,
                           exchange w app_id = Ok raw
                           /\ formatted_rows w raw = Raise e
                           /\ files s' = files s)
                     \/ (exists raw rows s2,
                           exchange w app_id = Ok raw
                           /\ formatted_rows w raw = Ok rows
                           /\ save_rows w rows
                                ("steamcharts_" +:+ app_id +:+ ".csv")
                                (after_get app_id s)
                              = (Raise e, s2)
                           /\ files s' = files s2)))).
Proof.
  unfold main. rewrite try_body_eq. fold (csv_filename app_id).
  destruct (exchange w app_id) as [raw|e] eqn:Ex.
  - destruct (formatted_rows w raw) as [rows|e] eqn:Ef.
    + pose proof (save_rows_spec w (csv_filename app_id) rows
                    (after_get app_id s)) as Hsave.
      destruct (save_rows w rows (csv_filename app_id) (after_get app_id s))
        as [[[]|e] s2] eqn:Es.
      * destruct Hsave as (_ & _ & _ & ->). cbn.
        eexists 0, _. split; [reflexivity|]. split; [reflexivity|].
        left. split; [reflexivity|]. split; [reflexivity|].
        exists raw, rows. cbn.
        split; [reflexivity|]. split; [exact Ef|].
        split; [exact Es|]. split; [reflexivity|].
        intros data Hdata. unfold formatted_rows in Ef.
        rewrite Hdata in Ef.
        destruct (format_data data) as [formatted|e]; [|discriminate].
        injection Ef as <-. exists formatted.
        split; [reflexivity|apply csv_lines_rows].
      * cbn. eexists 1, _. split; [reflexivity|].
        assert (Hr : requests s2 = requests s ++ [chart_url app_id]
                     /\ stdout s2 = stdout s).
        { destruct Hsave as [[_ ->]|(_ & _ & text & ->)]; auto. }
        destruct Hr as [Hr Hout]. cbn. split; [exact Hr|].
        right. split; [reflexivity|]. exists e. rewrite Hout.
        split; [reflexivity|]. right. right.
        exists raw, rows, s2. auto.
    + cbn. eexists 1, _. split; [reflexivity|]. split; [reflexivity|].
      right. split; [reflexivity|]. exists e. split; [reflexivity|].
      right. left. exists raw. auto.
  - cbn. eexists 1, _. split; [reflexivity|]. split; [reflexivity|].
    right. split; [reflexivity|]. exists e. split; [reflexivity|].
    left. auto.
Qed.

(** The whole run on the response of the specification's first example. *)
Example main_run_730 :
  main (serving two_samples) ["steamcharts_to_csv.py"; "730"] initial
  = (0,
     State {[ "steamcharts_730.csv" :=
              "Timestamp,Datetime (UTC),PlayerCount" +:+ crlf
              +:+ "1700000000,2023-11-14 22:13:20,10" +:+ crlf
              +:+ "1700003600,2023-11-14 23:13:20,12" +:+ crlf ]}
           ["https://steamcharts.com/app/730/chart-data.json"]
           ["Data saved to steamcharts_730.csv"]).
Proof. vm_compute. reflexivity. Qed.

(** A run in which the second write fails: status 1, the exception's text,
    and a file cut short. *)
Example main_run_disk_full :
  main (World (fun u => Ok (Response u 200 "OK" (Ok two_samples)))
              (fun _ => None)
              (fun _ n => if decide (n = 2%nat)
                          then Some (Exn OSError
                                       "[Errno 28] No space left on device")
                          else None)
              (fun _ => None)
              (fun _ => Raise (Exn TypeError "")))
       ["steamcharts_to_csv.py"; "730"] initial
  = (1,
     State {[ "steamcharts_730.csv" :=
              "Timestamp,Datetime (UTC),PlayerCount" +:+ crlf
              +:+ "1700000000,2023-11-14 22:13:20,10" +:+ crlf ]}
           ["https://steamcharts.com/app/730/chart-data.json"]
           ["Error: [Errno 28] No space left on device"]).
Proof. vm_compute. reflexivity. Qed.

(** * Further properties of the code *)

(** ** The Formatter *)

Lemma valid_spec_seconds_iff t :
  valid_epoch_seconds (spec_seconds t)
  <-> -62135596800 <= t <= 253402300799
      \/ 10 ^ 12 < t <= 253402300799999.
Proof.
  unfold valid_epoch_seconds, spec_seconds.
  change (10 ^ 12) with 1000000000000.
  destruct (decide (t > 1000000000000)) as [H|H].
  - split.
    + intros [_ Hq]. right. split; [lia|].
      destruct (Z_le_gt_dec t 253402300799999) as [|Hgt]; [assumption|].
      exfalso.
      assert (253402300800 <= t `div` 1000)
        by (apply Z.div_le_lower_bound; lia).
      lia.
    + intros [[_ Hm]|[_ Hm]]; [lia|]. split.
      * assert (0 <= t `div` 1000) by (apply Z.div_pos; lia). lia.
      * assert (t `div` 1000 < 253402300800)
          by (apply Z.div_lt_upper_bound; lia).
        lia.
  - split; [intros Hv; left; exact Hv|]. intros [Hv|[Hgt _]]; [exact Hv|lia].
Qed.

Lemma spec_seconds_fixed t :
  valid_epoch_seconds (spec_seconds t) ->
  spec_seconds (spec_seconds t) = spec_seconds t.
Proof.
  intros [_ H]. unfold spec_seconds at 1.
  change (10 ^ 12) with 1000000000000.
  destruct (decide (spec_seconds t > 1000000000000)); [lia|reflexivity].
Qed.

(** What holds of every row that comes from a valid sample. *)
Lemma spec_row_wellformed sample :
  valid_epoch_seconds (spec_seconds sample.1) ->
  let row := spec_row sample in
  valid_epoch_seconds row.1.1
  /\ (exists dt, read_datetime row.1.2 = Some dt
                 /\ valid_datetime dt /\ timegm dt = row.1.1)
  /\ (16 <= String.length row.1.2 <= 19)%nat
  /\ (String.length row.1.2 = 19%nat <-> -30610224000 <= row.1.1)
  /\ spec_field row.1.2 = row.1.2
  /\ row.2 = sample.2.
Proof.
  intros H. cbv zeta. unfold spec_row. cbn [fst snd].
  pose proof (gmtime_valid _ H) as Hv.
  destruct (read_datetime_strftime _ Hv) as [Hp Hl].
  pose proof (year_width_range (year (gmtime (spec_seconds sample.1)))) as Hr.
  pose proof (year_width_4 _ (proj1 Hv)) as H4.
  pose proof (gmtime_year_1000 (spec_seconds sample.1)) as Hy.
  split; [exact H|]. split.
  { exists (gmtime (spec_seconds sample.1)).
    split; [exact Hp|]. split; [exact Hv|apply gmtime_fields]. }
  split; [lia|]. split.
  { rewrite Hl, <- Hy, <- H4. lia. }
  split; [|reflexivity].
  rewrite <- csv_str_spec_field. now apply csv_str_strftime.
Qed.

(** X1: formatting a concatenation is formatting the parts in order: the
    rows of the first part, then those of the second, and the first
    exception met. *)
Theorem format_data_app (data1 data2 : list (Z * Z)) :
  format_data (data1 ++ data2)
  = rows1 ← format_data data1;
    rows2 ← format_data data2;
    mret (rows1 ++ rows2).
Proof.
  induction data1 as [|sample data1 IH].
  - rewrite format_data_nil. cbn [app mbind outcome_bind].
    destruct (format_data data2); reflexivity.
  - cbn [app]. rewrite !format_data_cons, IH.
    destruct (format_sample sample) as [row|e]; [|reflexivity].
    cbn [mbind outcome_bind].
    destruct (format_data data1) as [rows1|e]; [|reflexivity].
    cbn [mbind outcome_bind].
    destruct (format_data data2) as [rows2|e]; reflexivity.
Qed.

(** X2: the Formatter stops at the first sample it cannot convert: when the
    samples before it format and it raises, the whole call raises its
    exception, whatever comes after. *)
Theorem format_data_first_failure before rows sample after e :
  format_data before = Ok rows ->
  format_data [sample] = Raise e ->
  format_data (before ++ sample :: after) = Raise e.
Proof.
  intros Hb Hs. rewrite format_data_cons, format_data_nil in Hs.
  assert (Hsample : format_sample sample = Raise e).
  { destruct (format_sample sample); [discriminate|].
    cbn [mbind outcome_bind] in Hs. now injection Hs as ->. }
  clear Hs. revert rows Hb.
  induction before as [|first before IH]; intros rows Hb; cbn [app].
  - rewrite format_data_cons, Hsample. reflexivity.
  - rewrite format_data_cons in Hb |- *.
    destruct (format_sample first) as [row|e']; [|discriminate].
    cbn [mbind outcome_bind] in Hb |- *.
    destruct (format_data before) as [rows'|e'] eqn:Hrows; [|discriminate].
    now rewrite (IH rows' eq_refl).
Qed.

Lemma format_data_first_failure_witness :
  format_data ([(1700000000, 1)] ++ (1000000000000000, 2) :: [(5, 5)])
  = Raise (Exn ValueError "year 33658 is out of range").
Proof.
  exact (format_data_first_failure [(1700000000, 1)]
           [(1700000000, "2023-11-14 22:13:20", 1)]
           (1000000000000000, 2) [(5, 5)]
           (Exn ValueError "year 33658 is out of range")
           ltac:(vm_compute; reflexivity) ltac:(vm_compute; reflexivity)).
Defined.

(** X3: the Formatter returns a list exactly when every timestamp is a
    second of the years 1 to 9999 or a millisecond count above 10^12 of
    such a second; a timestamp from 253402300800 to 10^12 always makes it
    raise. *)
Theorem format_data_succeeds_iff (data : list (Z * Z)) :
  (exists rows, format_data data = Ok rows)
  <-> Forall (fun sample =>
                -62135596800 <= sample.1 <= 253402300799
                \/ 10 ^ 12 < sample.1 <= 253402300799999) data.
Proof.
  split.
  - intros [rows H]. apply format_data_inv in H as [_ H].
    eapply Forall_impl; [exact H|]. intros sample.
    apply valid_spec_seconds_iff.
  - intros H. exists (map spec_row data). apply format_data_ok.
    eapply Forall_impl; [exact H|]. intros sample.
    apply valid_spec_seconds_iff.
Qed.

(** X4: formatting is a fixed point on its own output: the timestamps and
    counts of returned rows format to the same rows again (a returned
    timestamp is in seconds and is never divided a second time). *)
Theorem format_data_fixed_point data rows :
  format_data data = Ok rows ->
  format_data (map (fun row => (row.1.1, row.2)) rows) = Ok rows.
Proof.
  intros H. apply format_data_inv in H as [-> Hall].
  rewrite map_map. rewrite format_data_ok.
  - f_equal. rewrite map_map. apply map_ext_in. intros sample Hin.
    rewrite Forall_forall in Hall.
    assert (Hv : valid_epoch_seconds (spec_seconds sample.1))
      by (apply Hall, list_elem_of_In, Hin).
    unfold spec_row. cbn [fst snd]. now rewrite spec_seconds_fixed.
  - apply Forall_map. eapply Forall_impl; [exact Hall|].
    intros sample Hv. unfold spec_row. cbn [fst snd].
    now rewrite spec_seconds_fixed.
Qed.

Lemma format_data_fixed_point_witness :
  format_data
    (map (fun row => (row.1.1, row.2))
       [(1700000000, "2023-11-14 22:13:20", 10);
        (1700003600, "2023-11-14 23:13:20", 12)])
  = Ok [(1700000000, "2023-11-14 22:13:20", 10);
        (1700003600, "2023-11-14 23:13:20", 12)].
Proof.
  exact (format_data_fixed_point
           [(1700000000000, 10); (1700003600, 12)]
           [(1700000000, "2023-11-14 22:13:20", 10);
            (1700003600, "2023-11-14 23:13:20", 12)]
           ltac:(vm_compute; reflexivity)).
Defined.



(** X6: in a returned list the datetime string tells the timestamp: two
    rows with the same string have the same timestamp. *)
Theorem format_data_datetime_injective data rows row1 row2 :
  format_data data = Ok rows ->
  row1 ∈ rows -> row2 ∈ rows ->
  row1.1.2 = row2.1.2 -> row1.1.1 = row2.1.1.
Proof.
  intros H H1 H2 Heq. apply format_data_inv in H as [-> Hall].
  apply list_elem_of_fmap in H1 as (s1 & -> & Hs1).
  apply list_elem_of_fmap in H2 as (s2 & -> & Hs2).
  rewrite Forall_forall in Hall.
  destruct (spec_row_wellformed s1 (Hall _ Hs1))
    as (_ & (d1 & Hp1 & _ & Ht1) & _).
  destruct (spec_row_wellformed s2 (Hall _ Hs2))
    as (_ & (d2 & Hp2 & _ & Ht2) & _).
  rewrite Heq, Hp2 in Hp1. injection Hp1 as <-. congruence.
Qed.

Lemma format_data_datetime_injective_witness :
  (-30610224001, "999-12-31 23:59:59", 10).1.1
  = (-30610224001, "999-12-31 23:59:59", 12).1.1.
Proof.
  exact (format_data_datetime_injective
           [(-30610224001, 10); (-30610224001, 12)]
           [(-30610224001, "999-12-31 23:59:59", 10);
            (-30610224001, "999-12-31 23:59:59", 12)]
           (-30610224001, "999-12-31 23:59:59", 10)
           (-30610224001, "999-12-31 23:59:59", 12)
           ltac:(vm_compute; reflexivity)
           ltac:(apply list_elem_of_here)
           ltac:(apply list_elem_of_further, list_elem_of_here)
           eq_refl).
Defined.

(** ** The Fetcher *)

Lemma raise_for_status_error response :
  400 <= status_code response < 600 ->
  exists message, raise_for_status response = Raise (Exn HTTPError message).
Proof.
  intros H. unfold raise_for_status.
  destruct (Z.leb_spec 400 (status_code response)); [|lia].
  destruct (Z.ltb_spec (status_code response) 500); cbn [andb]; [eauto|].
  destruct (Z.leb_spec 500 (status_code response)); [|lia].
  destruct (Z.ltb_spec (status_code response) 600); cbn [andb]; [eauto|lia].
Qed.

Lemma raise_for_status_ok response :
  ~ (400 <= status_code response < 600) -> raise_for_status response = Ok ().
Proof.
  intros H. unfold raise_for_status.
  destruct (Z.leb_spec 400 (status_code response)),
    (Z.ltb_spec (status_code response) 500),
    (Z.leb_spec 500 (status_code response)),
    (Z.ltb_spec (status_code response) 600); cbn [andb]; try reflexivity; lia.
Qed.

Lemma chart_data_of_ok data v :
  chart_data_of data = Ok v
  <-> (exists l, data = JArr l /\ v = data)
      \/ (exists d, data = JObj d /\ d !! "data" = Some v).
Proof.
  split.
  - intros H. destruct data; try discriminate.
    + left. injection H as <-. eauto.
    + right. rewrite chart_data_of_obj in H.
      destruct (d !! "data") as [v'|] eqn:E; [|discriminate].
      injection H as <-. eauto.
  - intros [(l & -> & ->)|(d & -> & Hd)]; [reflexivity|].
    now rewrite chart_data_of_obj, Hd.
Qed.

(** X7: the status is checked before the body is parsed: a response with a
    status from 400 to 599 makes the Fetcher raise an HTTP error, whatever
    its body holds. *)
Theorem fetch_chart_data_http_error w app_id s response :
  http_get w (chart_url app_id) = Ok response ->
  400 <= status_code response < 600 ->
  exists message,
    fetch_chart_data w app_id s
    = (Raise (Exn HTTPError message),
       State (files s) (requests s ++ [chart_url app_id]) (stdout s)).
Proof.
  intros Hget Hstatus. rewrite fetch_chart_data_eq.
  destruct (raise_for_status_error response Hstatus) as [message Hr].
  exists message. unfold exchange, after_get.
  rewrite Hget. cbn [mbind outcome_bind]. now rewrite Hr.
Qed.

Lemma fetch_chart_data_http_error_witness :
  exists message,
    fetch_chart_data
      (World (fun u => Ok (Response u 404 "Not Found" (Ok two_samples)))
             (fun _ => None) (fun _ _ => None) (fun _ => None)
             (fun _ => Ok []))
      "730" initial
    = (Raise (Exn HTTPError message),
       State ∅ ["https://steamcharts.com/app/730/chart-data.json"] []).
Proof.
  exact (fetch_chart_data_http_error
           (World (fun u => Ok (Response u 404 "Not Found" (Ok two_samples)))
                  (fun _ => None) (fun _ _ => None) (fun _ => None)
                  (fun _ => Ok []))
           "730" initial
           (Response (chart_url "730") 404 "Not Found" (Ok two_samples))
           eq_refl ltac:(cbn; lia)).
Defined.

(** X8: the Fetcher returns a value in two ways only: the response came
    with a status outside 400..599 and its body parsed to a list, which is
    the value, or to a dict that holds the value under the key [data]. *)
Theorem fetch_chart_data_ok_iff w app_id s v :
  (fetch_chart_data w app_id s).1 = Ok v
  <-> exists response body,
        http_get w (chart_url app_id) = Ok response
        /\ ~ (400 <= status_code response < 600)
        /\ json_body response = Ok body
        /\ ((exists l, body = JArr l /\ v = body)
            \/ (exists d, body = JObj d /\ d !! "data" = Some v)).
Proof.
  rewrite fetch_chart_data_eq. cbn [fst]. unfold exchange. split.
  - intros H.
    destruct (http_get w (chart_url app_id)) as [response|e]; [|discriminate].
    cbn [mbind outcome_bind] in H.
    destruct (decide (400 <= status_code response < 600)) as [Hs|Hs].
    { destruct (raise_for_status_error response Hs) as [m Hr].
      rewrite Hr in H. discriminate. }
    rewrite (raise_for_status_ok response Hs) in H.
    destruct (json_body response) as [body|e] eqn:Hb; [|discriminate].
    exists response, body. repeat split; try assumption.
    now apply chart_data_of_ok.
  - intros (response & body & Hget & Hs & Hb & Hshape).
    rewrite Hget. cbn [mbind outcome_bind].
    rewrite (raise_for_status_ok response Hs), Hb.
    now apply chart_data_of_ok.
Qed.

Lemma append_inj_r (s1 s2 suffix : string) :
  s1 +:+ suffix = s2 +:+ suffix -> s1 = s2.
Proof.
  revert s2. induction s1 as [|c s1 IH]; intros [|c' s2] H.
  - reflexivity.
  - exfalso. apply (f_equal String.length) in H.
    rewrite !length_append in H. cbn [String.length] in H. lia.
  - exfalso. apply (f_equal String.length) in H.
    rewrite !length_append in H. cbn [String.length] in H. lia.
  - rewrite !append_cons in H. injection H as -> H. f_equal. now apply IH.
Qed.

(** X9: distinct application identifiers are fetched from distinct URLs
    and saved to distinct files: both names hold the identifier
    verbatim. *)
Theorem names_injective (app_id1 app_id2 : string) :
  (chart_url app_id1 = chart_url app_id2 -> app_id1 = app_id2)
  /\ (csv_filename app_id1 = csv_filename app_id2 -> app_id1 = app_id2).
Proof.
  unfold chart_url, csv_filename. split; intros H.
  - apply String.app_inj in H. now apply append_inj_r in H.
  - apply String.app_inj in H. now apply append_inj_r in H.
Qed.


(** ** The Writer *)


Section WriterOutcome.

Variable w : world.
Variable path : string.

(** [writerows] as a function of the first failing write. *)
Lemma writerows_eq (rows : list (list string)) : forall n s c,
  files s !! path = Some c ->
  writerows w path n rows s
  = match first_fault (write_fault w path) n (List.length rows) with
    | None =>
        (Ok (), State (<[path := c +:+ csv_lines rows]> (files s))
                      (requests s) (stdout s))
    | Some (k, e) =>
        (Raise e, State (<[path := c +:+ csv_lines (take k rows)]> (files s))
                        (requests s) (stdout s))
    end.
Proof.
  induction rows as [|fields rows IH]; intros n s c Hc.
  - cbn. rewrite append_nil_r, insert_id by exact Hc. now destruct s.
  - cbn [writerows List.length first_fault].
    unfold mbind, io_bind, file_write.
    destruct (write_fault w path n) as [e|] eqn:Hn.
    + cbn [take csv_lines].
      rewrite append_nil_r, insert_id by exact Hc. now destruct s.
    + set (s1 := State _ _ _).
      assert (Hc1 : files s1 !! path = Some (c +:+ csv_line fields)).
      { unfold s1. cbn [files]. rewrite (alter_present _ _ _ c Hc).
        now rewrite lookup_insert_eq. }
      rewrite (IH (S n) s1 _ Hc1).
      unfold s1. cbn [files requests stdout].
      rewrite (alter_present _ _ _ c Hc).
      destruct (first_fault (write_fault w path) (S n) (List.length rows))
        as [[k e]|]; cbn [take csv_lines];
        now rewrite insert_insert_eq, append_assoc.
Qed.

(** [save_rows] as a function of the faults. *)
Lemma save_rows_eq rows s :
  save_rows w rows path s
  = match open_fault w path with
    | Some e => (Raise e, s)
    | None =>
        (match close_fault w path with
         | Some e => Raise e
         | None =>
             match first_fault (write_fault w path) 0
                     (S (List.length rows)) with
             | Some (_, e) => Raise e
             | None => Ok ()
             end
         end,
         State (<[path := text_left w path rows]> (files s))
               (requests s) (stdout s))
    end.
Proof.
  unfold save_rows, with_open_w, text_left.
  destruct (open_fault w path) as [e|]; [reflexivity|].
  unfold mbind, io_bind, file_write at 1. cbn [first_fault].
  destruct (write_fault w path 0) as [e|] eqn:H0.
  - cbn [files requests stdout].
    destruct (close_fault w path); reflexivity.
  - cbn [files requests stdout]. set (s1 := State _ _ _).
    assert (Hc1 : files s1 !! path = Some spec_header).
    { unfold s1. cbn [files].
      rewrite (alter_present _ _ _ "" (lookup_insert_eq _ _ _)).
      now rewrite lookup_insert_eq. }
    rewrite (writerows_eq rows 1 s1 _ Hc1).
    unfold s1. cbn [files requests stdout].
    rewrite (alter_present _ _ _ "" (lookup_insert_eq _ _ _)).
    destruct (first_fault (write_fault w path) 1 (List.length rows))
      as [[k e]|]; destruct (close_fault w path);
      now rewrite !insert_insert_eq.
Qed.

End WriterOutcome.



(** X11: whatever happens, [save_to_csv] touches nothing but the file at
    [filename]: every other file, the requests issued and the lines printed
    are as before. *)
Theorem save_to_csv_frame w data filename s :
  let s' := (save_to_csv w data filename s).2 in
  requests s' = requests s
  /\ stdout s' = stdout s
  /\ forall path, path <> filename -> files s' !! path = files s !! path.
Proof.
  cbv zeta. unfold save_to_csv. rewrite save_rows_eq.
  destruct (open_fault w filename) as [e|]; cbn [snd files requests stdout].
  - auto.
  - repeat split. intros path Hne. now rewrite lookup_insert_ne.
Qed.

(** X12: when the file cannot be opened, [save_to_csv] raises the
    exception of the open and changes nothing: a file already there keeps
    its content. *)
Theorem save_to_csv_open_fails w data filename s e :
  open_fault w filename = Some e ->
  save_to_csv w data filename s = (Raise e, s).
Proof.
  intros H. unfold save_to_csv. now rewrite save_rows_eq, H.
Qed.

Lemma save_to_csv_open_fails_witness :
  save_to_csv
    (World (fun _ => Raise (Exn ConnectionError ""))
           (fun _ => Some (Exn OSError "[Errno 13] Permission denied"))
           (fun _ _ => None) (fun _ => None) (fun _ => Ok []))
    [(1700000000, "2023-11-14 22:13:20", 10)] "out.csv"
    (State {[ "out.csv" := "old" ]} [] [])
  = (Raise (Exn OSError "[Errno 13] Permission denied"),
     State {[ "out.csv" := "old" ]} [] []).
Proof.
  exact (save_to_csv_open_fails
           (World (fun _ => Raise (Exn ConnectionError ""))
                  (fun _ => Some (Exn OSError "[Errno 13] Permission denied"))
                  (fun _ _ => None) (fun _ => None) (fun _ => Ok []))
           [(1700000000, "2023-11-14 22:13:20", 10)] "out.csv"
           (State {[ "out.csv" := "old" ]} [] [])
           (Exn OSError "[Errno 13] Permission denied") eq_refl).
Defined.

(** X13: the file is overwritten, never appended to: saving [data2] after
    any earlier save to the same file gives exactly what saving [data2]
    alone gives. *)
Theorem save_to_csv_overwrites w data1 data2 filename s :
  save_to_csv w data2 filename (save_to_csv w data1 filename s).2
  = save_to_csv w data2 filename s.
Proof.
  unfold save_to_csv. rewrite !save_rows_eq.
  destruct (open_fault w filename) as [e|]; [reflexivity|].
  cbn [snd files requests stdout]. now rewrite insert_insert_eq.
Qed.


(** ** The entry point *)

Lemma as_raw_samples_payload data : as_raw_samples (payload data) = Some data.
Proof.
  unfold payload, as_raw_samples.
  induction data as [|[t c] data IH]; [reflexivity|].
  cbn [map mapM sample_json as_raw_sample fst snd mbind option_bind].
  rewrite IH. reflexivity.
Qed.

Lemma formatted_rows_payload w data :
  formatted_rows w (payload data)
  = formatted ← format_data data; mret (map row_fields formatted).
Proof. unfold formatted_rows. now rewrite as_raw_samples_payload. Qed.

Lemma spec_lines_samples data :
  Forall (fun sample => valid_epoch_seconds (spec_seconds sample.1)) data ->
  spec_lines (map spec_row data) = sample_lines data.
Proof.
  induction 1 as [|sample data H _ IH]; [reflexivity|].
  cbn [map spec_lines sample_lines].
  rewrite (spec_line_formatted _ H), IH. now rewrite !append_assoc.
Qed.

(** [main] with one argument, as a function of the exchange, the
    Formatter and the faults. *)
Lemma main_eq w prog app_id s :
  main w [prog; app_id] s
  = match exchange w app_id with
    | Raise e =>
        (1, State (files s) (requests s ++ [chart_url app_id])
              (stdout s ++ ["Error: " +:+ exn_message e]))
    | Ok raw =>
        match formatted_rows w raw with
        | Raise e =>
            (1, State (files s) (requests s ++ [chart_url app_id])
                  (stdout s ++ ["Error: " +:+ exn_message e]))
        | Ok rows =>
            match save_rows w rows (csv_filename app_id)
                    (after_get app_id s) with
            | (Ok _, s2) =>
                (0, State (files s2) (requests s2)
                      (stdout s2 ++ ["Data saved to " +:+ csv_filename app_id]))
            | (Raise e, s2) =>
                (1, State (files s2) (requests s2)
                      (stdout s2 ++ ["Error: " +:+ exn_message e]))
            end
        end
    end.
Proof.
  unfold main. rewrite try_body_eq.
  destruct (exchange w app_id) as [raw|e]; [|reflexivity].
  destruct (formatted_rows w raw) as [rows|e]; [|reflexivity].
  destruct (save_rows w rows (csv_filename app_id) (after_get app_id s))
    as [[[]|e] s2]; reflexivity.
Qed.

(** X14: a run touches no file but its own: with the arguments
    [prog; app_id], every file other than [steamcharts_{app_id}.csv] is as
    before, whatever the world answers. *)
Theorem main_frame w prog app_id s path :
  path <> "steamcharts_" +:+ app_id +:+ ".csv" ->
  files (main w [prog; app_id] s).2 !! path = files s !! path.
Proof.
  intros Hne. rewrite main_eq.
  destruct (exchange w app_id) as [raw|e]; [|reflexivity].
  destruct (formatted_rows w raw) as [rows|e]; [|reflexivity].
  rewrite save_rows_eq. unfold after_get.
  destruct (open_fault w (csv_filename app_id)).
  - reflexivity.
  - destruct (close_fault w (csv_filename app_id));
      [|destruct (first_fault _ _ _) as [[k e]|]];
      cbn [snd files]; now rewrite lookup_insert_ne.
Qed.

Lemma main_frame_witness :
  files (main (serving two_samples) ["steamcharts_to_csv.py"; "730"]
           (State {[ "steamcharts_440.csv" := "kept" ]} [] [])).2
  !! "steamcharts_440.csv"
  = files (State {[ "steamcharts_440.csv" := "kept" ]} [] [])
    !! "steamcharts_440.csv".
Proof.
  exact (main_frame (serving two_samples) "steamcharts_to_csv.py" "730"
           (State {[ "steamcharts_440.csv" := "kept" ]} [] [])
           "steamcharts_440.csv" ltac:(discriminate)).
Defined.

(** X15: every run calls [print] exactly once, and the text goes with the
    exit status.  With the arguments [prog; app_id] it is
    [Data saved to steamcharts_{app_id}.csv] and status 0 when the [try]
    block ends normally, [Error: ] followed by [str(e)] and status 1 when
    the block raises [e]: nothing is printed before an exception.  With any
    other number of arguments it is the usage text and status 1. *)
Theorem main_prints_once w (argv : list string) s :
  exists text,
    stdout (main w argv s).2 = stdout s ++ [text]
    /\ match argv with
       | [_; app_id] =>
           match (try_body w app_id s).1 with
           | Ok _ =>
               (main w argv s).1 = 0
               /\ text = "Data saved to steamcharts_" +:+ app_id +:+ ".csv"
           | Raise e =>
               (main w argv s).1 = 1 /\ text = "Error: " +:+ exn_message e
           end
       | _ =>
           (main w argv s).1 = 1
           /\ text = "Usage: python steamcharts_to_csv.py <app_id>"
       end.
Proof.
  destruct argv as [|prog [|app_id [|extra argv]]];
    try (eexists; split; [reflexivity|]; split; reflexivity).
  rewrite main_eq, try_body_eq.
  destruct (exchange w app_id) as [raw|e].
  2: { eexists; split; [reflexivity|]; split; reflexivity. }
  destruct (formatted_rows w raw) as [rows|e].
  2: { eexists; split; [reflexivity|]; split; reflexivity. }
  pose proof (save_rows_spec w (csv_filename app_id) rows (after_get app_id s))
    as Hs.
  destruct (save_rows w rows (csv_filename app_id) (after_get app_id s))
    as [[[]|e] s2].
  - destruct Hs as (_ & _ & _ & ->). eexists.
    split; [reflexivity|]. split; reflexivity.
  - assert (Hout : stdout s2 = stdout s).
    { destruct Hs as [[_ ->]|(_ & _ & text & ->)]; reflexivity. }
    eexists. cbn [snd fst stdout]. rewrite Hout.
    split; [reflexivity|]. split; reflexivity.
Qed.

(** X16: end to end, on a payload of integer pairs whose timestamps are all
    valid and with no I/O fault, the run ends with status 0 and leaves in
    [steamcharts_{app_id}.csv] the header and one line
    [timestamp,datetime,count] per sample, in the order received, nothing
    quoted, every line ended by a carriage return and a line feed. *)
Theorem main_end_to_end w prog app_id s data :
  exchange w app_id = Ok (payload data) ->
  Forall (fun sample => valid_epoch_seconds (spec_seconds sample.1)) data ->
  open_fault w (csv_filename app_id) = None ->
  (forall k, write_fault w (csv_filename app_id) k = None) ->
  close_fault w (csv_filename app_id) = None ->
  main w [prog; app_id] s
  = (0,
     State (<["steamcharts_" +:+ app_id +:+ ".csv" :=
              "Timestamp,Datetime (UTC),PlayerCount" +:+ crlf
              +:+ sample_lines data]> (files s))
           (requests s ++ [chart_url app_id])
           (stdout s ++ ["Data saved to steamcharts_" +:+ app_id +:+ ".csv"])).
Proof.
  intros Hex Hvalid Ho Hw Hc. rewrite main_eq, Hex.
  rewrite formatted_rows_payload, (format_data_ok _ Hvalid).
  cbn [mbind outcome_bind mret outcome_ret].
  rewrite save_rows_ok; [|exact Ho|intros k _; apply Hw|exact Hc].
  cbn [files requests stdout after_get].
  rewrite csv_lines_rows, (spec_lines_samples _ Hvalid).
  unfold spec_header. now rewrite append_assoc.
Qed.

Lemma main_end_to_end_witness :
  main (serving (payload [(1700000000000, 10); (-62135596800, 1)]))
    ["steamcharts_to_csv.py"; "730"] initial
  = (0,
     State (<["steamcharts_730.csv" :=
              String.concat (String "013"%char (String "010"%char ""))
                ["Timestamp,Datetime (UTC),PlayerCount";
                 "1700000000,2023-11-14 22:13:20,10";
                 "-62135596800,1-01-01 00:00:00,1";
                 ""]]> ∅)
           ["https://steamcharts.com/app/730/chart-data.json"]
           ["Data saved to steamcharts_730.csv"]).
Proof.
  exact (main_end_to_end
           (serving (payload [(1700000000000, 10); (-62135596800, 1)]))
           "steamcharts_to_csv.py" "730"
           initial [(1700000000000, 10); (-62135596800, 1)]
           eq_refl
           ltac:(repeat constructor; vm_compute; intros; discriminate)
           eq_refl (fun _ => eq_refl) eq_refl).
Defined.

(** X17: all or nothing: on a payload of integer pairs that the Formatter
    rejects, the run ends with status 1 and the Formatter's message, and no
    file is created, truncated or changed. *)
Theorem main_bad_timestamp w prog app_id s data e :
  exchange w app_id = Ok (payload data) ->
  format_data data = Raise e ->
  main w [prog; app_id] s
  = (1, State (files s) (requests s ++ [chart_url app_id])
          (stdout s ++ ["Error: " +:+ exn_message e])).
Proof.
  intros Hex Hf. rewrite main_eq, Hex, formatted_rows_payload, Hf.
  reflexivity.
Qed.

Lemma main_bad_timestamp_witness :
  main (serving (payload [(1700000000, 10); (1000000000000000, 5)]))
    ["steamcharts_to_csv.py"; "730"]
    (State {[ "steamcharts_730.csv" := "old" ]} [] [])
  = (1, State {[ "steamcharts_730.csv" := "old" ]}
          ([] ++ [chart_url "730"])
          ([] ++ ["Error: " +:+ "year 33658 is out of range"])).
Proof.
  exact (main_bad_timestamp
           (serving (payload [(1700000000, 10); (1000000000000000, 5)]))
           "steamcharts_to_csv.py" "730"
           (State {[ "steamcharts_730.csv" := "old" ]} [] [])
           [(1700000000, 10); (1000000000000000, 5)]
           (Exn ValueError "year 33658 is out of range")
           eq_refl ltac:(vm_compute; reflexivity)).
Defined.

(** X18: a run sends at most one request: with one argument it is the GET
    of the chart URL of that argument, whatever happens afterwards, and
    with any other number of arguments nothing is requested. *)
Theorem main_requests w (argv : list string) s :
  requests (main w argv s).2
  = requests s ++ match argv with
                  | [_; app_id] => [chart_url app_id]
                  | _ => []
                  end.
Proof.
  destruct argv as [|prog [|app_id [|extra argv]]];
    try (cbn; now rewrite app_nil_r).
  rewrite main_eq.
  destruct (exchange w app_id) as [raw|e]; [|reflexivity].
  destruct (formatted_rows w raw) as [rows|e]; [|reflexivity].
  rewrite save_rows_eq. unfold after_get.
  destruct (open_fault w (csv_filename app_id)).
  - reflexivity.
  - destruct (close_fault w (csv_filename app_id));
      [|destruct (first_fault _ _ _) as [[k e]|]]; reflexivity.
Qed.
